(** * AirDCC: the CC1101 transceiver control of [AirDcc.cpp]

    The three public operations of class [AirDcc] ([startModem],
    [changeChannel], [keepAlive]) are embedded as computations in a small
    monad that threads the object's fields, records every Arduino call the
    code makes (pin writes, SPI calls, delays) in program order, and stops
    with [Undefined] at an array read outside a fixed table. *)

From Stdlib Require Import ZArith List Bool Lia.
From Stdlib Require String.
Import String.StringSyntax.
Delimit Scope string_scope with string.
Import ListNotations.
Open Scope Z_scope.

(** ** The Arduino calls the driver makes *)

Inductive level := LOW | HIGH.
Inductive pin_mode := INPUT | OUTPUT.
Inductive BitOrder := LSBFIRST | MSBFIRST.
Inductive DataMode := SPI_MODE0 | SPI_MODE1 | SPI_MODE2 | SPI_MODE3.

Record SPISettings := mkSPISettings
  { clock : Z; bitOrder : BitOrder; dataMode : DataMode }.

Inductive event :=
| EpinMode (pin : Z) (m : pin_mode)
| EdigitalWrite (pin : Z) (v : level)
| ESPI_begin
| Edelay (ms : Z)
| ESPI_beginTransaction (s : SPISettings)
| ESPI_transfer (b : Z)
| ESPI_endTransaction.

(** ** Defines and constants (AirDcc.cpp, lines 35-58) *)

Definition RX : Z := 0x34.
Definition TX : Z := 0x35.
Definition STOP : Z := 0x36.
Definition PATABLE : Z := 0x3E.
Definition CHAN : Z := 0x0A.

Definition initData : list Z :=
  [0x40; 0x2E; 0x2E; 0x0D; 0x07; 0xD3; 0x91; 0xFF; 0x04;
   0x32; 0x00; 0x4B; 0x06; 0x00; 0x22; 0xB7; 0x55; 0x8A;
   0x93; 0x00; 0x23; 0x3B; 0x50; 0x07; 0x30; 0x18; 0x16;
   0x6C; 0x03; 0x40; 0x91; 0x87; 0x6B; 0xF8; 0x56; 0x10;
   0xE9; 0x2A; 0x00; 0x1F; 0x40; 0x00; 0x59; 0x7F; 0x3F;
   0x81; 0x35; 0x09].

Definition channels : list Z :=
  [0x4B; 0x45; 0x33; 0x27; 0x1B; 0x15; 0x0F; 0x03; 0x5E;
   0x58; 0x52; 0x3E; 0x39; 0x2C; 0x21; 0x89; 0x37].

Definition powers : list Z :=
  [0x03; 0x15; 0x1C; 0x27; 0x66; 0x8E; 0x89;
   0xCD; 0xC4; 0xC1; 0xC0].

(** [sizeof] of a [uint8_t] array is its number of elements. *)
Definition sizeof (tbl : list Z) : nat := length tbl.

(** [tbl[i]]: defined only inside the array. *)
Definition at_index (tbl : list Z) (i : Z) : option Z :=
  if (0 <=? i) && (i <? Z.of_nat (length tbl))
  then nth_error tbl (Z.to_nat i)
  else None.

(** ** The object (AirDcc.h, lines 24-28); every field is a [uint8_t] *)

Record AirDcc := mkAirDcc
  { _enable_pin : Z; _transmit : Z; _channel : Z; _power : Z }.

(** ** The monad: fields threaded, calls logged, undefined reads stop *)

Inductive outcome (A : Type) :=
| Ret (a : A) (self : AirDcc) (out : list event)
| Undefined (self : AirDcc) (out : list event).
Arguments Ret {A} a self out.
Arguments Undefined {A} self out.

Definition M (A : Type) := AirDcc -> outcome A.

Definition ret {A} (a : A) : M A := fun self => Ret a self [].

Definition bind {A B} (m : M A) (f : A -> M B) : M B :=
  fun self =>
    match m self with
    | Ret a self1 o1 =>
        match f a self1 with
        | Ret b self2 o2 => Ret b self2 (o1 ++ o2)
        | Undefined self2 o2 => Undefined self2 (o1 ++ o2)
        end
    | Undefined self1 o1 => Undefined self1 o1
    end.

Notation "x <- m ;; k" := (bind m (fun x => k))
  (at level 61, m at next level, right associativity).
Notation "m ;; k" := (bind m (fun _ => k))
  (at level 61, right associativity).

Definition get {A} (f : AirDcc -> A) : M A := fun self => Ret (f self) self [].

Definition set_channel (v : Z) : M unit := fun self =>
  Ret tt (mkAirDcc (_enable_pin self) (_transmit self) v (_power self)) [].
Definition set_transmit (v : Z) : M unit := fun self =>
  Ret tt (mkAirDcc (_enable_pin self) v (_channel self) (_power self)) [].
Definition set_power (v : Z) : M unit := fun self =>
  Ret tt (mkAirDcc (_enable_pin self) (_transmit self) (_channel self) v) [].
Definition set_enable_pin (v : Z) : M unit := fun self =>
  Ret tt (mkAirDcc v (_transmit self) (_channel self) (_power self)) [].

Definition read (tbl : list Z) (i : Z) : M Z := fun self =>
  match at_index tbl i with
  | Some v => Ret v self []
  | None => Undefined self []
  end.

Definition emit (e : event) : M unit := fun self => Ret tt self [e].

Definition pinMode (pin : Z) (m : pin_mode) := emit (EpinMode pin m).
Definition digitalWrite (pin : Z) (v : level) := emit (EdigitalWrite pin v).
Definition SPI_begin := emit ESPI_begin.
Definition delay (ms : Z) := emit (Edelay ms).
Definition SPI_beginTransaction (s : SPISettings) := emit (ESPI_beginTransaction s).
Definition SPI_transfer (b : Z) := emit (ESPI_transfer b).
Definition SPI_endTransaction := emit ESPI_endTransaction.

(** [for (int i = 0; i < n; i++) body(i)] over the indices [0 .. n-1]. *)
Fixpoint for_ (idx : list nat) (body : Z -> M unit) : M unit :=
  match idx with
  | [] => ret tt
  | i :: rest => body (Z.of_nat i) ;; for_ rest body
  end.

(** A [uint8_t] used as a condition is true when it is not zero. *)
Definition truthy (v : Z) : bool := negb (v =? 0).

(** ** Constructor (AirDcc.cpp, lines 63-67) *)

Definition AirDcc_ctor (enable_pin : Z) : M unit :=
  set_enable_pin enable_pin ;;
  pinMode enable_pin OUTPUT.

(** ** startModem (AirDcc.cpp, lines 72-125) *)

Definition startModem (channel : Z) (transmit : bool) (power : Z) : M unit :=
  set_channel channel ;;
  set_transmit (Z.b2z transmit) ;;
  set_power power ;;
  let powerCode := 0x89 in
  ch <- get _channel ;;
  channelCode <- read channels ch ;;
  let mode := RX in
  tr <- get _transmit ;;
  mp <- (if truthy tr
         then pw <- get _power ;;
              pc <- read powers pw ;;
              ret (TX, pc)
         else ret (mode, powerCode)) ;;
  let mode := fst mp in
  let powerCode := snd mp in
  pin <- get _enable_pin ;;
  digitalWrite pin HIGH ;;
  let settings := mkSPISettings 8000000 MSBFIRST SPI_MODE0 in
  SPI_begin ;;
  delay 100 ;;
  SPI_beginTransaction settings ;;
  digitalWrite pin LOW ;;
  SPI_transfer STOP ;;
  digitalWrite pin HIGH ;;
  digitalWrite pin LOW ;;
  for_ (seq 0 (sizeof initData))
       (fun i => b <- read initData i ;; SPI_transfer b) ;;
  digitalWrite pin HIGH ;;
  digitalWrite pin LOW ;;
  SPI_transfer PATABLE ;;
  SPI_transfer powerCode ;;
  digitalWrite pin HIGH ;;
  digitalWrite pin LOW ;;
  SPI_transfer CHAN ;;
  SPI_transfer channelCode ;;
  digitalWrite pin HIGH ;;
  digitalWrite pin LOW ;;
  SPI_transfer mode ;;
  digitalWrite pin HIGH ;;
  SPI_endTransaction.

(** ** changeChannel (AirDcc.cpp, lines 130-166) *)

Definition changeChannel (channel : Z) : M unit :=
  set_channel channel ;;
  ch <- get _channel ;;
  channelCode <- read channels ch ;;
  pw <- get _power ;;
  powerCode <- read powers pw ;;
  tr <- get _transmit ;;
  let mode := if truthy tr then TX else RX in
  let settings := mkSPISettings 8000000 MSBFIRST SPI_MODE0 in
  pin <- get _enable_pin ;;
  SPI_begin ;;
  SPI_beginTransaction settings ;;
  digitalWrite pin LOW ;;
  SPI_transfer STOP ;;
  digitalWrite pin HIGH ;;
  digitalWrite pin LOW ;;
  SPI_transfer PATABLE ;;
  SPI_transfer powerCode ;;
  digitalWrite pin HIGH ;;
  digitalWrite pin LOW ;;
  SPI_transfer CHAN ;;
  SPI_transfer channelCode ;;
  digitalWrite pin HIGH ;;
  digitalWrite pin LOW ;;
  SPI_transfer mode ;;
  digitalWrite pin HIGH ;;
  SPI_endTransaction.

(** ** keepAlive (AirDcc.cpp, lines 171-185) *)

Definition keepAlive : M unit :=
  let settings := mkSPISettings 8000000 MSBFIRST SPI_MODE0 in
  pin <- get _enable_pin ;;
  SPI_begin ;;
  SPI_beginTransaction settings ;;
  digitalWrite pin LOW ;;
  tr <- get _transmit ;;
  (if truthy tr then SPI_transfer TX else SPI_transfer RX) ;;
  digitalWrite pin HIGH ;;
  SPI_endTransaction.

(** ** The callers' view: operations in sequence *)

Inductive op :=
| StartModem (channel : Z) (transmit : bool) (power : Z)
| ChangeChannel (channel : Z)
| KeepAlive.

Definition exec (o : op) : M unit :=
  match o with
  | StartModem c t p => startModem c t p
  | ChangeChannel c => changeChannel c
  | KeepAlive => keepAlive
  end.

Fixpoint exec_all (ops : list op) : M unit :=
  match ops with
  | [] => ret tt
  | o :: rest => exec o ;; exec_all rest
  end.

(** [n] calls of [keepAlive] in a row; the log of each call is kept apart. *)
Fixpoint keepAlive_times (n : nat) (self : AirDcc) : list (outcome unit) :=
  match n with
  | O => []
  | S k =>
      let r := keepAlive self in
      r :: match r with
           | Ret _ self1 _ => keepAlive_times k self1
           | Undefined _ _ => []
           end
  end.

(** ** Reading a log as framed bus transactions

    The select line of the handle frames a transaction: the bytes
    transferred between the write of [LOW] and the next write of [HIGH] are
    one frame.  [bus_step] refuses a log that transfers a byte while the
    line is not held low or outside [beginTransaction]/[endTransaction],
    that asserts the line twice, or that ends the SPI transaction while the
    line is still low. *)

Definition frame := list Z.

Record bus := mkBus { selected : option frame; in_transaction : bool }.

Definition idle : bus := mkBus None false.

Definition bus_step (pin : Z) (b : bus) (e : event) : option (bus * list frame) :=
  match e with
  | EdigitalWrite p v =>
      if p =? pin then
        match v, selected b with
        | LOW, None => Some (mkBus (Some []) (in_transaction b), [])
        | LOW, Some _ => None
        | HIGH, Some f => Some (mkBus None (in_transaction b), [f])
        | HIGH, None => Some (b, [])
        end
      else Some (b, [])
  | ESPI_beginTransaction _ =>
      if in_transaction b then None else Some (mkBus (selected b) true, [])
  | ESPI_transfer x =>
      match selected b with
      | Some f =>
          if in_transaction b then Some (mkBus (Some (f ++ [x])) true, [])
          else None
      | None => None
      end
  | ESPI_endTransaction =>
      match selected b with
      | None => if in_transaction b then Some (idle, []) else None
      | Some _ => None
      end
  | EpinMode _ _ | ESPI_begin | Edelay _ => Some (b, [])
  end.

Fixpoint bus_run (pin : Z) (b : bus) (es : list event) : option (bus * list frame) :=
  match es with
  | [] => Some (b, [])
  | e :: rest =>
      match bus_step pin b e with
      | None => None
      | Some (b1, fs1) =>
          match bus_run pin b1 rest with
          | None => None
          | Some (b2, fs2) => Some (b2, fs1 ++ fs2)
          end
      end
  end.

(** The frames of a log that starts and ends with the bus idle. *)
Definition transactions (pin : Z) (es : list event) : option (list frame) :=
  match bus_run pin idle es with
  | Some (mkBus None false, fs) => Some fs
  | _ => None
  end.

(** The level of a pin after a log: its last write, if any. *)
Fixpoint pin_level (pin : Z) (init : level) (es : list event) : level :=
  match es with
  | [] => init
  | EdigitalWrite p v :: rest =>
      pin_level pin (if p =? pin then v else init) rest
  | _ :: rest => pin_level pin init rest
  end.

(** The settings of every [beginTransaction] of a log. *)
Fixpoint settings_used (es : list event) : list SPISettings :=
  match es with
  | [] => []
  | ESPI_beginTransaction s :: rest => s :: settings_used rest
  | _ :: rest => settings_used rest
  end.

(** The bytes put on the bus by a log, in order. *)
Fixpoint bytes_sent (es : list event) : list Z :=
  match es with
  | [] => []
  | ESPI_transfer b :: rest => b :: bytes_sent rest
  | _ :: rest => bytes_sent rest
  end.

(** One framed transaction: select low, the payload, select high. *)
Definition bracket (pin : Z) (f : frame) : list event :=
  EdigitalWrite pin LOW :: map ESPI_transfer f ++ [EdigitalWrite pin HIGH].

Definition settings_8MHz_MSB_MODE0 : SPISettings :=
  mkSPISettings 8000000 MSBFIRST SPI_MODE0.

(** ** What the device was last told

    A two-byte frame is a register write (address, value); a one-byte frame
    is a command strobe ([STOP], [RX], [TX]). *)

Record pushed := mkPushed
  { p_power : option Z; p_channel : option Z; p_mode : option Z }.

Definition push (d : pushed) (f : frame) : pushed :=
  match f with
  | [m] => mkPushed (p_power d) (p_channel d) (Some m)
  | [r; v] =>
      if r =? PATABLE then mkPushed (Some v) (p_channel d) (p_mode d)
      else if r =? CHAN then mkPushed (p_power d) (Some v) (p_mode d)
      else d
  | _ => d
  end.

Definition pushed_by (fs : list frame) : pushed :=
  fold_left push fs (mkPushed None None None).

Definition mode_of (transmit : Z) : Z := if truthy transmit then TX else RX.

(** ** Ordinals of the tables, and what the operations are documented to store *)

Definition valid_channel (c : Z) : Prop := 0 <= c <= 16.
Definition valid_power (p : Z) : Prop := 0 <= p <= 10.

(** As documented: [startModem] stores its three arguments,
    [changeChannel] the new channel only, [keepAlive] nothing. *)
Definition stored_after (self : AirDcc) (o : op) : AirDcc :=
  match o with
  | StartModem c t p => mkAirDcc (_enable_pin self) (Z.b2z t) c p
  | ChangeChannel c =>
      mkAirDcc (_enable_pin self) (_transmit self) c (_power self)
  | KeepAlive => self
  end.

(** A call is rejected when it returns having changed no field and having
    sent nothing. *)
Definition rejected (m : M unit) (self : AirDcc) : Prop :=
  m self = Ret tt self [].

(** A call reads past a fixed table when it stops at an array read. *)
Definition reads_past_table (m : M unit) (self : AirDcc) : Prop :=
  exists self1 out, m self = Undefined self1 out.

(** The logs of [startModem] and [changeChannel] with the table reads done. *)
Definition startModem_log (pin powerCode channelCode mode : Z) : list event :=
  [EdigitalWrite pin HIGH; ESPI_begin; Edelay 100;
   ESPI_beginTransaction settings_8MHz_MSB_MODE0]
  ++ bracket pin [STOP]
  ++ bracket pin initData
  ++ bracket pin [PATABLE; powerCode]
  ++ bracket pin [CHAN; channelCode]
  ++ bracket pin [mode]
  ++ [ESPI_endTransaction].

Definition changeChannel_log (pin powerCode channelCode mode : Z) : list event :=
  [ESPI_begin; ESPI_beginTransaction settings_8MHz_MSB_MODE0]
  ++ bracket pin [STOP]
  ++ bracket pin [PATABLE; powerCode]
  ++ bracket pin [CHAN; channelCode]
  ++ bracket pin [mode]
  ++ [ESPI_endTransaction].

Definition keepAlive_log (pin mode : Z) : list event :=
  [ESPI_begin; ESPI_beginTransaction settings_8MHz_MSB_MODE0]
  ++ bracket pin [mode]
  ++ [ESPI_endTransaction].

(** The fields and the log an outcome carries. *)
Definition self_of {A} (o : outcome A) : AirDcc :=
  match o with Ret _ s _ => s | Undefined s _ => s end.

Definition out_of {A} (o : outcome A) : list event :=
  match o with Ret _ _ l => l | Undefined _ l => l end.

(** The ordinals an operation reads a table with are inside the table. *)
Definition valid_in (self : AirDcc) (o : op) : Prop :=
  match o with
  | StartModem c t p => valid_channel c /\ (t = true -> valid_power p)
  | ChangeChannel c => valid_channel c /\ valid_power (_power self)
  | KeepAlive => True
  end.

Fixpoint all_valid (self : AirDcc) (ops : list op) : Prop :=
  match ops with
  | [] => True
  | o :: rest => valid_in self o /\ all_valid (stored_after self o) rest
  end.

(** The fields agree with what the device was last told: the channel
    register holds the code of the stored channel, the last strobe is the
    mode of the stored direction, and when transmitting the power register
    holds the code of the stored power. *)
Definition reflects (self : AirDcc) (d : pushed) : Prop :=
  (exists cc, at_index channels (_channel self) = Some cc /\
              p_channel d = Some cc) /\
  p_mode d = Some (mode_of (_transmit self)) /\
  (truthy (_transmit self) = true ->
   exists pc, at_index powers (_power self) = Some pc /\
              p_power d = Some pc).

(** ** More ways to read a log *)

(** The pins a log writes or configures. *)
Fixpoint pins_touched (es : list event) : list Z :=
  match es with
  | [] => []
  | EdigitalWrite p _ :: rest => p :: pins_touched rest
  | EpinMode p _ :: rest => p :: pins_touched rest
  | _ :: rest => pins_touched rest
  end.

(** The delays of a log, in order. *)
Fixpoint delays (es : list event) : list Z :=
  match es with
  | [] => []
  | Edelay ms :: rest => ms :: delays rest
  | _ :: rest => delays rest
  end.

(** The pins a log configures, with their modes, and the pins it writes,
    with their levels. *)
Fixpoint pin_modes (es : list event) : list (Z * pin_mode) :=
  match es with
  | [] => []
  | EpinMode p m :: rest => (p, m) :: pin_modes rest
  | _ :: rest => pin_modes rest
  end.

Fixpoint pin_writes (es : list event) : list (Z * level) :=
  match es with
  | [] => []
  | EdigitalWrite p v :: rest => (p, v) :: pin_writes rest
  | _ :: rest => pin_writes rest
  end.

(** What a log does on one pin and on the SPI bus: the [pinMode] and
    [digitalWrite] calls on that pin and every SPI call, in order; calls
    on other pins and delays are left out. *)
Fixpoint on_pin_and_spi (pin : Z) (es : list event) : list event :=
  match es with
  | [] => []
  | e :: rest =>
      let keep :=
        match e with
        | EpinMode p _ | EdigitalWrite p _ => p =? pin
        | Edelay _ => false
        | ESPI_begin | ESPI_beginTransaction _ | ESPI_transfer _
        | ESPI_endTransaction => true
        end in
      if keep then e :: on_pin_and_spi pin rest else on_pin_and_spi pin rest
  end.

(** * The example sketch (examples/AirDCC_Accessory_Decoder) *)

Module Sketch.

(** ** Defines and structures (lines 65-90) *)

Definition kDCC_INTERRUPT : Z := 0.
Definition NUM_ADDRESSES : nat := 4.

Record DCCAccessoryAddress := mkAddr
  { address : Z; state : bool; offPin : Z; onPin : Z;
    servoPin : Z; servoOffPos : Z; servoOnPos : Z }.

Definition enablePin : Z := 10.
Definition channel : Z := 6.
Definition tx : Z := 0.
Definition power : Z := 0.

(** The globals, and the EEPROM cells the sketch reads and updates. *)
Record sketch := mkSketch
  { gAddresses : list DCCAccessoryAddress;
    timer : Z;
    Modem : AirDcc;
    EEPROM : Z -> Z }.

(** What [Serial.print] is given: a string or a number. *)
Inductive text := Str (s : String.string) | Int (n : Z).
Arguments Str s%_string.

(** Calls into the Arduino core ([Arduino]) and into the Serial, Servo and
    DCC_Decoder libraries. *)
Inductive sk_event :=
| Arduino (e : event)
| ESerial_begin (baud : Z)
| ESerial_print (t : text)
| ESerial_println (t : text)
| EServo_attach (i pin : Z)
| EServo_write (i angle : Z)
| EDCC_SetBasicAccessoryDecoderPacketHandler (allAddresses : bool)
| EDCC_SetupDecoder (mfgID mfgVers interrupt : Z).

Inductive sk_outcome (A : Type) :=
| SRet (a : A) (s : sketch) (out : list sk_event)
| SUndefined (s : sketch) (out : list sk_event).
Arguments SRet {A} a s out.
Arguments SUndefined {A} s out.

Definition SM (A : Type) := sketch -> sk_outcome A.

Definition sret {A} (a : A) : SM A := fun s => SRet a s [].

Definition sbind {A B} (m : SM A) (f : A -> SM B) : SM B :=
  fun s =>
    match m s with
    | SRet a s1 o1 =>
        match f a s1 with
        | SRet b s2 o2 => SRet b s2 (o1 ++ o2)
        | SUndefined s2 o2 => SUndefined s2 (o1 ++ o2)
        end
    | SUndefined s1 o1 => SUndefined s1 o1
    end.

Declare Scope sk_scope.
Notation "x <- m ;; k" := (sbind m (fun x => k))
  (at level 61, m at next level, right associativity) : sk_scope.
Notation "m ;; k" := (sbind m (fun _ => k))
  (at level 61, right associativity) : sk_scope.
Local Open Scope sk_scope.

Definition state_of {A} (o : sk_outcome A) : sketch :=
  match o with SRet _ s _ => s | SUndefined s _ => s end.

Definition log_of {A} (o : sk_outcome A) : list sk_event :=
  match o with SRet _ _ l => l | SUndefined _ l => l end.

Definition semit (e : sk_event) : SM unit := fun s => SRet tt s [e].

Definition pinMode (pin : Z) (m : pin_mode) := semit (Arduino (EpinMode pin m)).
Definition digitalWrite (pin : Z) (v : level) :=
  semit (Arduino (EdigitalWrite pin v)).
Definition delay (ms : Z) := semit (Arduino (Edelay ms)).
Definition Serial_begin (baud : Z) := semit (ESerial_begin baud).
Definition Serial_print (t : text) := semit (ESerial_print t).
Definition Serial_println (t : text) := semit (ESerial_println t).
Definition DCC_SetBasicAccessoryDecoderPacketHandler (allAddresses : bool) :=
  semit (EDCC_SetBasicAccessoryDecoderPacketHandler allAddresses).
Definition DCC_SetupDecoder (mfgID mfgVers interrupt : Z) :=
  semit (EDCC_SetupDecoder mfgID mfgVers interrupt).

(** [gAddresses[i]] and [servo[i]]: arrays of [NUM_ADDRESSES] elements. *)
Definition in_array (i : Z) : bool :=
  (0 <=? i) && (i <? Z.of_nat NUM_ADDRESSES).

Definition gAddresses_at (i : Z) : SM DCCAccessoryAddress := fun s =>
  if in_array i then
    match nth_error (gAddresses s) (Z.to_nat i) with
    | Some a => SRet a s []
    | None => SUndefined s []
    end
  else SUndefined s [].

Fixpoint update_nth {A} (n : nat) (f : A -> A) (l : list A) : list A :=
  match l, n with
  | [], _ => []
  | a :: rest, O => f a :: rest
  | a :: rest, S k => a :: update_nth k f rest
  end.

(** [gAddresses[i].field = v]. *)
Definition gAddresses_set (i : Z)
    (f : DCCAccessoryAddress -> DCCAccessoryAddress) : SM unit := fun s =>
  if in_array i then
    match nth_error (gAddresses s) (Z.to_nat i) with
    | Some _ =>
        SRet tt (mkSketch (update_nth (Z.to_nat i) f (gAddresses s))
                          (timer s) (Modem s) (EEPROM s)) []
    | None => SUndefined s []
    end
  else SUndefined s [].

Definition with_address (v : Z) (a : DCCAccessoryAddress) :=
  mkAddr v (state a) (offPin a) (onPin a) (servoPin a) (servoOffPos a) (servoOnPos a).
Definition with_state (v : bool) (a : DCCAccessoryAddress) :=
  mkAddr (address a) v (offPin a) (onPin a) (servoPin a) (servoOffPos a) (servoOnPos a).
Definition with_offPin (v : Z) (a : DCCAccessoryAddress) :=
  mkAddr (address a) (state a) v (onPin a) (servoPin a) (servoOffPos a) (servoOnPos a).
Definition with_onPin (v : Z) (a : DCCAccessoryAddress) :=
  mkAddr (address a) (state a) (offPin a) v (servoPin a) (servoOffPos a) (servoOnPos a).
Definition with_servoPin (v : Z) (a : DCCAccessoryAddress) :=
  mkAddr (address a) (state a) (offPin a) (onPin a) v (servoOffPos a) (servoOnPos a).
Definition with_servoOffPos (v : Z) (a : DCCAccessoryAddress) :=
  mkAddr (address a) (state a) (offPin a) (onPin a) (servoPin a) v (servoOnPos a).
Definition with_servoOnPos (v : Z) (a : DCCAccessoryAddress) :=
  mkAddr (address a) (state a) (offPin a) (onPin a) (servoPin a) (servoOffPos a) v.

(** [servo[i].attach(pin)] and [servo[i].write(angle)]. *)
Definition Servo_attach (i pin : Z) : SM unit := fun s =>
  if in_array i then SRet tt s [EServo_attach i pin] else SUndefined s [].
Definition Servo_write (i angle : Z) : SM unit := fun s =>
  if in_array i then SRet tt s [EServo_write i angle] else SUndefined s [].

Definition EEPROM_read (i : Z) : SM Z := fun s => SRet (EEPROM s i) s [].
Definition EEPROM_update (i v : Z) : SM unit := fun s =>
  SRet tt (mkSketch (gAddresses s) (timer s) (Modem s)
                    (fun j => if j =? i then v else EEPROM s j)) [].

Definition get_timer : SM Z := fun s => SRet (timer s) s [].
Definition set_timer (v : Z) : SM unit := fun s =>
  SRet tt (mkSketch (gAddresses s) v (Modem s) (EEPROM s)) [].

(** A call of a method of the global [Modem]. *)
Definition Modem_call {A} (m : M A) : SM A := fun s =>
  match m (Modem s) with
  | Ret a self out =>
      SRet a (mkSketch (gAddresses s) (timer s) self (EEPROM s))
           (map Arduino out)
  | Undefined self out =>
      SUndefined (mkSketch (gAddresses s) (timer s) self (EEPROM s))
                 (map Arduino out)
  end.

(** The result of an [int] operation: undefined outside the range of
    [int], whose largest value [INT_MAX] depends on the board. *)
Definition int_ (INT_MAX : Z) (v : Z) : SM Z := fun s =>
  if (- INT_MAX - 1 <=? v) && (v <=? INT_MAX) then SRet v s []
  else SUndefined s [].

Fixpoint sfor (idx : list nat) (body : Z -> SM unit) : SM unit :=
  match idx with
  | [] => sret tt
  | i :: rest => body (Z.of_nat i) ;; sfor rest body
  end.

Definition on_off (st : bool) : String.string :=
  if st then " on"%string else " off"%string.

(** ** ConfigureDecoder (lines 95-149) *)

Definition ConfigureDecoder : SM unit :=
  gAddresses_set 0 (with_address 1) ;;
  gAddresses_set 0 (with_offPin 18) ;;
  gAddresses_set 0 (with_onPin 19) ;;
  gAddresses_set 0 (with_servoPin 14) ;;
  gAddresses_set 0 (with_servoOffPos 45) ;;
  gAddresses_set 0 (with_servoOnPos 135) ;;
  gAddresses_set 1 (with_address 2) ;;
  gAddresses_set 1 (with_offPin 3) ;;
  gAddresses_set 1 (with_onPin 4) ;;
  gAddresses_set 1 (with_servoPin 15) ;;
  gAddresses_set 1 (with_servoOffPos 45) ;;
  gAddresses_set 1 (with_servoOnPos 135) ;;
  gAddresses_set 2 (with_address 3) ;;
  gAddresses_set 2 (with_offPin 5) ;;
  gAddresses_set 2 (with_onPin 6) ;;
  gAddresses_set 2 (with_servoPin 16) ;;
  gAddresses_set 2 (with_servoOffPos 45) ;;
  gAddresses_set 2 (with_servoOnPos 135) ;;
  gAddresses_set 3 (with_address 4) ;;
  gAddresses_set 3 (with_offPin 8) ;;
  gAddresses_set 3 (with_onPin 9) ;;
  gAddresses_set 3 (with_servoPin 17) ;;
  gAddresses_set 3 (with_servoOffPos 45) ;;
  gAddresses_set 3 (with_servoOnPos 135) ;;
  sfor (seq 0 NUM_ADDRESSES) (fun i =>
    a <- gAddresses_at i ;; pinMode (offPin a) OUTPUT ;;
    a <- gAddresses_at i ;; pinMode (onPin a) OUTPUT ;;
    a <- gAddresses_at i ;; pinMode (servoPin a) OUTPUT ;;
    a <- gAddresses_at i ;; Servo_attach i (servoPin a) ;;
    Serial_print (Str "Addr:") ;;
    a <- gAddresses_at i ;; Serial_print (Int (address a)) ;;
    Serial_print (Str " Off Pin:") ;;
    a <- gAddresses_at i ;; Serial_print (Int (offPin a)) ;;
    Serial_print (Str " On Pin:") ;;
    a <- gAddresses_at i ;; Serial_print (Int (onPin a)) ;;
    Serial_print (Str " Servo Pin:") ;;
    a <- gAddresses_at i ;; Serial_print (Int (servoPin a)) ;;
    Serial_print (Str " Off Position:") ;;
    a <- gAddresses_at i ;; Serial_print (Int (servoOffPos a)) ;;
    Serial_print (Str " On Position:") ;;
    a <- gAddresses_at i ;; Serial_println (Int (servoOnPos a))).

(** ** SetOutputs (lines 154-168) *)

Definition SetOutputs (addr : Z) : SM unit :=
  a <- gAddresses_at addr ;;
  if state a then
    a <- gAddresses_at addr ;; digitalWrite (offPin a) LOW ;;
    a <- gAddresses_at addr ;; digitalWrite (onPin a) HIGH ;;
    a <- gAddresses_at addr ;; Servo_write addr (servoOnPos a)
  else
    a <- gAddresses_at addr ;; digitalWrite (onPin a) LOW ;;
    a <- gAddresses_at addr ;; digitalWrite (offPin a) HIGH ;;
    a <- gAddresses_at addr ;; Servo_write addr (servoOffPos a).

(** ** RestoreStates (lines 173-184) *)

Definition RestoreStates : SM unit :=
  sfor (seq 0 NUM_ADDRESSES) (fun i =>
    v <- EEPROM_read i ;;
    gAddresses_set i (with_state (truthy v)) ;;
    SetOutputs i ;;
    a <- gAddresses_at i ;; Serial_print (Int (address a)) ;;
    Serial_print (Str ":") ;;
    a <- gAddresses_at i ;; Serial_println (Int (Z.b2z (state a))) ;;
    delay 500).

(** ** BasicAccDecoderPacket_Handler (lines 189-213) *)

Definition BasicAccDecoderPacket_Handler
    (INT_MAX : Z) (address_ : Z) (activate : bool) (data : Z) : SM unit :=
  address_ <- int_ INT_MAX (address_ - 1) ;;
  address_ <- int_ INT_MAX (address_ * 4) ;;
  address_ <- int_ INT_MAX (address_ + 1) ;;
  address_ <- int_ INT_MAX (address_ + Z.shiftr (Z.land data 0x06) 1) ;;
  let state_ := if Z.b2z activate =? Z.land data 0x01 then false else true in
  Serial_print (Str "Accessory ") ;;
  Serial_print (Int address_) ;;
  Serial_println (Str (on_off state_)) ;;
  sfor (seq 0 NUM_ADDRESSES) (fun i =>
    a <- gAddresses_at i ;;
    if address_ =? address a then
      gAddresses_set i (with_state state_) ;;
      SetOutputs i ;;
      EEPROM_update i (Z.b2z state_)
    else sret tt).

(** ** setup (lines 218-232); [now] is what [millis()] returns *)

Definition setup (now : Z) : SM unit :=
  Serial_begin 115200 ;;
  Serial_println (Str "DCC Wireless Accessory Decoder") ;;
  DCC_SetBasicAccessoryDecoderPacketHandler true ;;
  ConfigureDecoder ;;
  delay 100 ;;
  DCC_SetupDecoder 0x00 0x00 kDCC_INTERRUPT ;;
  Serial_print (Str "RF Channel:") ;;
  Serial_println (Int channel) ;;
  Modem_call (startModem (channel mod 256) (truthy tx) (power mod 256)) ;;
  Serial_println (Str "Restoring states:") ;;
  RestoreStates ;;
  set_timer now.

(** ** loop (lines 237-247)

    [DCC_loop] is what [DCC.loop()] does to the sketch (it may call the
    packet handler); [now1] and [now2] are the two readings of [millis()],
    an [unsigned long] of 32 bits. *)

Definition loop (DCC_loop : SM unit) (now1 now2 : Z) : SM unit :=
  DCC_loop ;;
  t <- get_timer ;;
  if (now1 - t) mod 2 ^ 32 >? 500 then
    Modem_call keepAlive ;;
    set_timer now2
  else sret tt.

(** ** Start of the program: the globals are zeroed, then the constructor
    of [Modem] runs (line 90) *)

Definition zeroed (eeprom : Z -> Z) : sketch :=
  mkSketch (repeat (mkAddr 0 false 0 0 0 0 0) NUM_ADDRESSES) 0
           (mkAirDcc 0 0 0 0) eeprom.

Definition static_init : SM unit := Modem_call (AirDcc_ctor enablePin).

(** ** The program as the Arduino core runs it

    [DCC.loop()] hands the packets decoded since the last pass to the
    registered handler; the core calls [setup] once and then [loop]
    forever.  A pass is the packets it delivers and its two readings of
    [millis()]. *)

Definition packet : Type := Z * bool * Z.

Fixpoint deliver (INT_MAX : Z) (ps : list packet) : SM unit :=
  match ps with
  | [] => sret tt
  | (a, act, data) :: rest =>
      BasicAccDecoderPacket_Handler INT_MAX a act data ;;
      deliver INT_MAX rest
  end.

Fixpoint run_loops (INT_MAX : Z) (passes : list (list packet * Z * Z))
  : SM unit :=
  match passes with
  | [] => sret tt
  | (ps, now1, now2) :: rest =>
      loop (deliver INT_MAX ps) now1 now2 ;; run_loops INT_MAX rest
  end.

(** The address arithmetic of the handler stays inside [int]. *)
Definition packet_in_int (INT_MAX : Z) (p : packet) : Prop :=
  - INT_MAX - 1 <= 4 * (fst (fst p) - 1) /\ 4 * fst (fst p) <= INT_MAX.

(** ** Reading a sketch log *)

(** The Arduino core calls of a log. *)
Fixpoint hw (es : list sk_event) : list event :=
  match es with
  | [] => []
  | Arduino e :: rest => e :: hw rest
  | _ :: rest => hw rest
  end.

(** Whether two pins are ever high together along a log, starting from
    the levels [l1] and [l2]. *)
Fixpoint never_both_high (p1 p2 : Z) (l1 l2 : level) (es : list event) : bool :=
  match l1, l2 with
  | HIGH, HIGH => false
  | _, _ =>
      match es with
      | [] => true
      | EdigitalWrite p v :: rest =>
          never_both_high p1 p2 (if p =? p1 then v else l1)
                          (if p =? p2 then v else l2) rest
      | _ :: rest => never_both_high p1 p2 l1 l2 rest
      end
  end.

End Sketch.

(** ** The logs of the sketch's functions with the array reads done *)

Module SketchLogs.
Import Sketch.

Definition SetOutputs_log (i : Z) (a : DCCAccessoryAddress) : list sk_event :=
  if state a then
    [Arduino (EdigitalWrite (offPin a) LOW);
     Arduino (EdigitalWrite (onPin a) HIGH);
     EServo_write i (servoOnPos a)]
  else
    [Arduino (EdigitalWrite (onPin a) LOW);
     Arduino (EdigitalWrite (offPin a) HIGH);
     EServo_write i (servoOffPos a)].

Definition RestoreStates_log (i : Z) (a : DCCAccessoryAddress) : list sk_event :=
  SetOutputs_log i a
  ++ [ESerial_print (Int (address a)); ESerial_print (Str ":");
      ESerial_println (Int (Z.b2z (state a)));
      Arduino (Edelay 500)].

Definition ConfigureDecoder_log (i : Z) (a : DCCAccessoryAddress) : list sk_event :=
  [Arduino (EpinMode (offPin a) OUTPUT);
   Arduino (EpinMode (onPin a) OUTPUT);
   Arduino (EpinMode (servoPin a) OUTPUT);
   EServo_attach i (servoPin a);
   ESerial_print (Str "Addr:"); ESerial_print (Int (address a));
   ESerial_print (Str " Off Pin:"); ESerial_print (Int (offPin a));
   ESerial_print (Str " On Pin:"); ESerial_print (Int (onPin a));
   ESerial_print (Str " Servo Pin:"); ESerial_print (Int (servoPin a));
   ESerial_print (Str " Off Position:"); ESerial_print (Int (servoOffPos a));
   ESerial_print (Str " On Position:"); ESerial_println (Int (servoOnPos a))].

(** The entries as [ConfigureDecoder] leaves them, given their states. *)
Definition configured (s0 s1 s2 s3 : bool) : list DCCAccessoryAddress :=
  [mkAddr 1 s0 18 19 14 45 135;
   mkAddr 2 s1 3 4 15 45 135;
   mkAddr 3 s2 5 6 16 45 135;
   mkAddr 4 s3 8 9 17 45 135].

(** The pins of an entry. *)
Definition pins_of (a : DCCAccessoryAddress) : list Z :=
  [offPin a; onPin a; servoPin a].

(** What the handler does to one entry, for the converted address [h] and
    the new state [st]. *)
Definition handled (h : Z) (st : bool) (a : DCCAccessoryAddress)
  : DCCAccessoryAddress :=
  if h =? address a then with_state st a else a.

Definition handled_log (h : Z) (st : bool) (i : Z) (a : DCCAccessoryAddress)
  : list sk_event :=
  if h =? address a then SetOutputs_log i (with_state st a) else [].

(** The pins the servos of a log are attached to, in order. *)
Fixpoint attached_pins (es : list sk_event) : list Z :=
  match es with
  | [] => []
  | EServo_attach _ pin :: rest => pin :: attached_pins rest
  | _ :: rest => attached_pins rest
  end.

End SketchLogs.

(** * Proofs *)

(** ** Table reads *)

Lemma at_index_channels (c : Z) :
  valid_channel c -> exists code, at_index channels c = Some code.
Proof.
  unfold valid_channel, at_index; intros Hc.
  replace ((0 <=? c) && (c <? Z.of_nat (length channels))) with true.
  - destruct (nth_error channels (Z.to_nat c)) as [v|] eqn:E; [eauto|].
    apply nth_error_None in E. simpl in E. lia.
  - symmetry. apply andb_true_intro. split; [apply Z.leb_le | apply Z.ltb_lt];
      simpl; lia.
Qed.

Lemma at_index_powers (p : Z) :
  valid_power p -> exists code, at_index powers p = Some code.
Proof.
  unfold valid_power, at_index; intros Hp.
  replace ((0 <=? p) && (p <? Z.of_nat (length powers))) with true.
  - destruct (nth_error powers (Z.to_nat p)) as [v|] eqn:E; [eauto|].
    apply nth_error_None in E. simpl in E. lia.
  - symmetry. apply andb_true_intro. split; [apply Z.leb_le | apply Z.ltb_lt];
      simpl; lia.
Qed.

(** ** The operations, with their table reads made explicit *)

Lemma startModem_run (c : Z) (t : bool) (p : Z) (self : AirDcc) :
  startModem c t p self =
  let self1 := mkAirDcc (_enable_pin self) (Z.b2z t) c p in
  match at_index channels c with
  | None => Undefined self1 []
  | Some cc =>
      if t then
        match at_index powers p with
        | None => Undefined self1 []
        | Some pc => Ret tt self1 (startModem_log (_enable_pin self) pc cc TX)
        end
      else Ret tt self1 (startModem_log (_enable_pin self) 0x89 cc RX)
  end.
Proof.
  destruct self as [pin tr0 ch0 pw0].
  cbv beta iota zeta delta
    [startModem bind read get set_channel set_transmit set_power
     _channel _transmit _power _enable_pin].
  destruct (at_index channels c) as [cc|]; [|reflexivity].
  destruct t; cbn [Z.b2z truthy Z.eqb negb].
  - destruct (at_index powers p) as [pc|]; reflexivity.
  - reflexivity.
Qed.

Lemma changeChannel_run (c : Z) (self : AirDcc) :
  changeChannel c self =
  let self1 := mkAirDcc (_enable_pin self) (_transmit self) c (_power self) in
  match at_index channels c with
  | None => Undefined self1 []
  | Some cc =>
      match at_index powers (_power self) with
      | None => Undefined self1 []
      | Some pc =>
          Ret tt self1
            (changeChannel_log (_enable_pin self) pc cc (mode_of (_transmit self)))
      end
  end.
Proof.
  destruct self as [pin tr0 ch0 pw0].
  cbv beta iota zeta delta
    [changeChannel bind read get set_channel
     _channel _transmit _power _enable_pin].
  destruct (at_index channels c) as [cc|]; [|reflexivity].
  destruct (at_index powers pw0) as [pc|]; reflexivity.
Qed.

Lemma keepAlive_run (self : AirDcc) :
  keepAlive self =
  Ret tt self (keepAlive_log (_enable_pin self) (mode_of (_transmit self))).
Proof.
  destruct self as [pin tr0 ch0 pw0].
  cbv beta iota zeta delta
    [keepAlive bind get mode_of _transmit _enable_pin
     SPI_begin SPI_beginTransaction digitalWrite emit].
  destruct (truthy tr0); reflexivity.
Qed.

(** ** Logs as framed transactions *)

Lemma bus_run_app (pin : Z) (es1 es2 : list event) : forall b,
  bus_run pin b (es1 ++ es2) =
  match bus_run pin b es1 with
  | None => None
  | Some (b1, fs1) =>
      match bus_run pin b1 es2 with
      | None => None
      | Some (b2, fs2) => Some (b2, fs1 ++ fs2)
      end
  end.
Proof.
  induction es1 as [|e es1 IH]; intros b; cbn [app bus_run].
  - destruct (bus_run pin b es2) as [[b2 fs2]|]; reflexivity.
  - destruct (bus_step pin b e) as [[b1 fs1]|]; [|reflexivity].
    rewrite IH.
    destruct (bus_run pin b1 es1) as [[b2 fs2]|]; [|reflexivity].
    destruct (bus_run pin b2 es2) as [[b3 fs3]|]; [|reflexivity].
    rewrite app_assoc. reflexivity.
Qed.

Lemma bus_run_payload (pin : Z) (f : frame) : forall acc,
  bus_run pin (mkBus (Some acc) true)
          (map ESPI_transfer f ++ [EdigitalWrite pin HIGH]) =
  Some (mkBus None true, [acc ++ f]).
Proof.
  induction f as [|x f IH]; intros acc; cbn [map app bus_run bus_step selected in_transaction].
  - rewrite Z.eqb_refl, !app_nil_r. reflexivity.
  - rewrite IH, <- app_assoc. reflexivity.
Qed.

Lemma bus_run_bracket (pin : Z) (f : frame) :
  bus_run pin (mkBus None true) (bracket pin f) = Some (mkBus None true, [f]).
Proof.
  unfold bracket. cbn [bus_run bus_step selected in_transaction].
  rewrite Z.eqb_refl, bus_run_payload. reflexivity.
Qed.

Lemma bus_run_brackets (pin : Z) (fs : list frame) :
  bus_run pin (mkBus None true)
          (concat (map (bracket pin) fs) ++ [ESPI_endTransaction]) =
  Some (idle, fs).
Proof.
  induction fs as [|f fs IH]; [reflexivity|].
  cbn [map concat]. rewrite <- app_assoc, bus_run_app, bus_run_bracket, IH.
  reflexivity.
Qed.

Lemma transactions_framed (pin : Z) (pre : list event) (fs : list frame) :
  bus_run pin idle pre = Some (mkBus None true, []) ->
  transactions pin
    (pre ++ concat (map (bracket pin) fs) ++ [ESPI_endTransaction]) = Some fs.
Proof.
  intros H. unfold transactions.
  rewrite bus_run_app, H, bus_run_brackets. reflexivity.
Qed.

Lemma transactions_startModem_log (pin pc cc m : Z) :
  transactions pin (startModem_log pin pc cc m) =
  Some [[STOP]; initData; [PATABLE; pc]; [CHAN; cc]; [m]].
Proof.
  apply (transactions_framed pin
           [EdigitalWrite pin HIGH; ESPI_begin; Edelay 100;
            ESPI_beginTransaction settings_8MHz_MSB_MODE0]
           [[STOP]; initData; [PATABLE; pc]; [CHAN; cc]; [m]]).
  cbn. rewrite Z.eqb_refl. reflexivity.
Qed.

Lemma transactions_changeChannel_log (pin pc cc m : Z) :
  transactions pin (changeChannel_log pin pc cc m) =
  Some [[STOP]; [PATABLE; pc]; [CHAN; cc]; [m]].
Proof.
  apply (transactions_framed pin
           [ESPI_begin; ESPI_beginTransaction settings_8MHz_MSB_MODE0]
           [[STOP]; [PATABLE; pc]; [CHAN; cc]; [m]]).
  reflexivity.
Qed.

Lemma transactions_keepAlive_log (pin m : Z) :
  transactions pin (keepAlive_log pin m) = Some [[m]].
Proof.
  apply (transactions_framed pin
           [ESPI_begin; ESPI_beginTransaction settings_8MHz_MSB_MODE0]
           [[m]]).
  reflexivity.
Qed.

Lemma transactions_app (pin : Z) (es1 es2 : list event) (fs1 fs2 : list frame) :
  transactions pin es1 = Some fs1 ->
  transactions pin es2 = Some fs2 ->
  transactions pin (es1 ++ es2) = Some (fs1 ++ fs2).
Proof.
  unfold transactions. rewrite bus_run_app.
  destruct (bus_run pin idle es1) as [[[[f|] [|]] gs1]|]; try discriminate.
  intros H1; injection H1 as ->. fold idle.
  destruct (bus_run pin idle es2) as [[[[f|] [|]] gs2]|]; try discriminate.
  intros H2; injection H2 as ->. reflexivity.
Qed.

Lemma pin_level_app (pin : Z) (es1 es2 : list event) : forall init,
  pin_level pin init (es1 ++ es2) = pin_level pin (pin_level pin init es1) es2.
Proof.
  induction es1 as [|e es1 IH]; intros init; [reflexivity|].
  destruct e; cbn [app pin_level]; apply IH.
Qed.

Lemma pin_level_bracket (pin : Z) (f : frame) (init : level) :
  pin_level pin init (bracket pin f) = HIGH.
Proof.
  unfold bracket. cbn [pin_level]. rewrite Z.eqb_refl, pin_level_app.
  generalize (pin_level pin LOW (map ESPI_transfer f)); intros l.
  cbn [pin_level]. rewrite Z.eqb_refl. reflexivity.
Qed.

Lemma pin_level_startModem_log (pin pc cc m : Z) (init : level) :
  pin_level pin init (startModem_log pin pc cc m) = HIGH.
Proof.
  unfold startModem_log.
  rewrite !pin_level_app, (pin_level_bracket pin [m]). reflexivity.
Qed.

Lemma pin_level_changeChannel_log (pin pc cc m : Z) (init : level) :
  pin_level pin init (changeChannel_log pin pc cc m) = HIGH.
Proof.
  unfold changeChannel_log.
  rewrite !pin_level_app, (pin_level_bracket pin [m]). reflexivity.
Qed.

Lemma pin_level_keepAlive_log (pin m : Z) (init : level) :
  pin_level pin init (keepAlive_log pin m) = HIGH.
Proof.
  unfold keepAlive_log.
  rewrite !pin_level_app, (pin_level_bracket pin [m]). reflexivity.
Qed.

Lemma settings_used_app (es1 es2 : list event) :
  settings_used (es1 ++ es2) = settings_used es1 ++ settings_used es2.
Proof.
  induction es1 as [|e es1 IH]; [reflexivity|].
  destruct e; cbn [app settings_used]; rewrite ?IH; reflexivity.
Qed.

Lemma settings_used_bracket (pin : Z) (f : frame) :
  settings_used (bracket pin f) = [].
Proof.
  unfold bracket. cbn [settings_used]. rewrite settings_used_app.
  induction f as [|x f IH]; [reflexivity|exact IH].
Qed.

Lemma bytes_sent_app (es1 es2 : list event) :
  bytes_sent (es1 ++ es2) = bytes_sent es1 ++ bytes_sent es2.
Proof.
  induction es1 as [|e es1 IH]; [reflexivity|].
  destruct e; cbn [app bytes_sent]; rewrite ?IH; reflexivity.
Qed.

Lemma bytes_sent_bracket (pin : Z) (f : frame) :
  bytes_sent (bracket pin f) = f.
Proof.
  unfold bracket. cbn [bytes_sent]. rewrite bytes_sent_app.
  cbn [bytes_sent]. rewrite app_nil_r.
  induction f as [|x f IH]; [reflexivity|].
  cbn [map bytes_sent]. rewrite IH. reflexivity.
Qed.

Lemma settings_used_logs (pin pc cc m : Z) :
  settings_used (startModem_log pin pc cc m) = [settings_8MHz_MSB_MODE0] /\
  settings_used (changeChannel_log pin pc cc m) = [settings_8MHz_MSB_MODE0] /\
  settings_used (keepAlive_log pin m) = [settings_8MHz_MSB_MODE0].
Proof.
  unfold startModem_log, changeChannel_log, keepAlive_log.
  rewrite !settings_used_app, !settings_used_bracket. repeat split.
Qed.

(** ** What each operation sends, for ordinals inside the tables *)

Lemma startModem_receive (c p : Z) (self : AirDcc) (cc : Z) :
  at_index channels c = Some cc ->
  startModem c false p self =
  Ret tt (mkAirDcc (_enable_pin self) 0 c p)
      (startModem_log (_enable_pin self) 0x89 cc RX).
Proof. intros Hc. rewrite startModem_run, Hc. reflexivity. Qed.

Lemma startModem_transmit (c p : Z) (self : AirDcc) (cc pc : Z) :
  at_index channels c = Some cc ->
  at_index powers p = Some pc ->
  startModem c true p self =
  Ret tt (mkAirDcc (_enable_pin self) 1 c p)
      (startModem_log (_enable_pin self) pc cc TX).
Proof. intros Hc Hp. rewrite startModem_run, Hc, Hp. reflexivity. Qed.

Lemma changeChannel_defined (c : Z) (self : AirDcc) (cc pc : Z) :
  at_index channels c = Some cc ->
  at_index powers (_power self) = Some pc ->
  changeChannel c self =
  Ret tt (mkAirDcc (_enable_pin self) (_transmit self) c (_power self))
      (changeChannel_log (_enable_pin self) pc cc (mode_of (_transmit self))).
Proof. intros Hc Hp. rewrite changeChannel_run, Hc, Hp. reflexivity. Qed.

(** C1: for a channel ordinal in [0,16] and any power, [startModem] in
    receive direction sends exactly five framed transactions, in this order:
    the stop command, the 48 bytes of [initData] in one frame, the power
    register with the fixed receive code 0x89, the channel register with
    [channels[c]], and the receive strobe; the 100 ms delay sits between
    [SPI.begin] and the stop command. *)
Theorem C1_startModem_receive_sequence (c p : Z) (self : AirDcc) :
  valid_channel c ->
  exists code out rest,
    at_index channels c = Some code /\
    startModem c false p self =
      Ret tt (mkAirDcc (_enable_pin self) 0 c p) out /\
    transactions (_enable_pin self) out =
      Some [[STOP]; initData; [PATABLE; 0x89]; [CHAN; code]; [RX]] /\
    length initData = 48%nat /\
    out = EdigitalWrite (_enable_pin self) HIGH
          :: ESPI_begin
          :: Edelay 100
          :: ESPI_beginTransaction settings_8MHz_MSB_MODE0
          :: EdigitalWrite (_enable_pin self) LOW
          :: ESPI_transfer STOP
          :: EdigitalWrite (_enable_pin self) HIGH
          :: rest /\
    bytes_sent rest = initData ++ [PATABLE; 0x89; CHAN; code; RX] /\
    settings_used rest = [].
Proof.
  intros Hc. destruct (at_index_channels c Hc) as [code Hcode].
  exists code. eexists. eexists.
  split; [exact Hcode|].
  split; [apply startModem_receive; exact Hcode|].
  split; [apply transactions_startModem_log|].
  split; [reflexivity|].
  split; [reflexivity|].
  split; reflexivity.
Qed.

Lemma C1_startModem_receive_sequence_witness :
  valid_channel 6 /\
  exists code out rest,
    at_index channels 6 = Some code /\
    startModem 6 false 0 (mkAirDcc 10 0 0 0) =
      Ret tt (mkAirDcc 10 0 6 0) out /\
    transactions 10 out =
      Some [[STOP]; initData; [PATABLE; 0x89]; [CHAN; code]; [RX]] /\
    length initData = 48%nat /\
    out = EdigitalWrite 10 HIGH
          :: ESPI_begin
          :: Edelay 100
          :: ESPI_beginTransaction settings_8MHz_MSB_MODE0
          :: EdigitalWrite 10 LOW
          :: ESPI_transfer STOP
          :: EdigitalWrite 10 HIGH
          :: rest /\
    bytes_sent rest = initData ++ [PATABLE; 0x89; CHAN; code; RX] /\
    settings_used rest = [].
Proof.
  split; [unfold valid_channel; lia|].
  apply (C1_startModem_receive_sequence 6 0 (mkAirDcc 10 0 0 0)).
  unfold valid_channel; lia.
Defined.

(** C2: for a channel in [0,16] and a power in [0,10], [startModem] in
    transmit direction writes [powers[p]] to the power register and sends
    the transmit strobe; in receive direction it writes the fixed code 0x89
    to the power register whatever the power argument [q] is, and sends the
    receive strobe. *)
Theorem C2_startModem_power_and_mode (c p q : Z) (self : AirDcc) :
  valid_channel c ->
  valid_power p ->
  exists cc pc outT outR,
    at_index channels c = Some cc /\
    at_index powers p = Some pc /\
    startModem c true p self =
      Ret tt (mkAirDcc (_enable_pin self) 1 c p) outT /\
    transactions (_enable_pin self) outT =
      Some [[STOP]; initData; [PATABLE; pc]; [CHAN; cc]; [TX]] /\
    startModem c false q self =
      Ret tt (mkAirDcc (_enable_pin self) 0 c q) outR /\
    transactions (_enable_pin self) outR =
      Some [[STOP]; initData; [PATABLE; 0x89]; [CHAN; cc]; [RX]].
Proof.
  intros Hc Hp.
  destruct (at_index_channels c Hc) as [cc Hcc].
  destruct (at_index_powers p Hp) as [pc Hpc].
  exists cc, pc. eexists. eexists.
  split; [exact Hcc|]. split; [exact Hpc|].
  split; [apply startModem_transmit; eassumption|].
  split; [apply transactions_startModem_log|].
  split; [apply startModem_receive; eassumption|].
  apply transactions_startModem_log.
Qed.

Lemma C2_startModem_power_and_mode_witness :
  valid_channel 16 /\ valid_power 10 /\
  exists cc pc outT outR,
    at_index channels 16 = Some cc /\
    at_index powers 10 = Some pc /\
    startModem 16 true 10 (mkAirDcc 10 0 0 0) =
      Ret tt (mkAirDcc 10 1 16 10) outT /\
    transactions 10 outT =
      Some [[STOP]; initData; [PATABLE; pc]; [CHAN; cc]; [TX]] /\
    startModem 16 false 200 (mkAirDcc 10 0 0 0) =
      Ret tt (mkAirDcc 10 0 16 200) outR /\
    transactions 10 outR =
      Some [[STOP]; initData; [PATABLE; 0x89]; [CHAN; cc]; [RX]].
Proof.
  split; [unfold valid_channel; lia|].
  split; [unfold valid_power; lia|].
  apply (C2_startModem_power_and_mode 16 10 200 (mkAirDcc 10 0 0 0)).
  - unfold valid_channel; lia.
  - unfold valid_power; lia.
Defined.

(** C3, on the receive setup of the example sketch: after
    [startModem(6, false, 0)] on select
    pin 10, which writes the receive code 0x89 to the power register,
    [changeChannel(1)] writes [powers[0] = 0x03] to the power register
    although the stored direction is receive.  The rest is as documented:
    no [initData] frame, no delay, stop first, then the channel register
    with [channels[1]], then the receive strobe, and the stored channel
    becomes 1. *)
Theorem C3_changeChannel_receive_power :
  exists out0 out,
    startModem 6 false 0 (mkAirDcc 10 0 0 0) =
      Ret tt (mkAirDcc 10 0 6 0) out0 /\
    transactions 10 out0 =
      Some [[STOP]; initData; [PATABLE; 0x89]; [CHAN; 0x0F]; [RX]] /\
    changeChannel 1 (mkAirDcc 10 0 6 0) = Ret tt (mkAirDcc 10 0 1 0) out /\
    out = [ESPI_begin; ESPI_beginTransaction settings_8MHz_MSB_MODE0;
           EdigitalWrite 10 LOW; ESPI_transfer STOP; EdigitalWrite 10 HIGH;
           EdigitalWrite 10 LOW; ESPI_transfer PATABLE; ESPI_transfer 0x03;
           EdigitalWrite 10 HIGH;
           EdigitalWrite 10 LOW; ESPI_transfer CHAN; ESPI_transfer 0x45;
           EdigitalWrite 10 HIGH;
           EdigitalWrite 10 LOW; ESPI_transfer RX; EdigitalWrite 10 HIGH;
           ESPI_endTransaction] /\
    transactions 10 out = Some [[STOP]; [PATABLE; 0x03]; [CHAN; 0x45]; [RX]] /\
    0x03 <> 0x89.
Proof.
  eexists. eexists.
  split; [reflexivity|].
  split; [reflexivity|].
  split; [reflexivity|].
  split; [reflexivity|].
  split; [reflexivity|].
  discriminate.
Qed.

(** C4: whatever the fields hold, [keepAlive] sends exactly one framed
    transaction whose only byte is the strobe of the stored direction
    ([TX] when [_transmit] is not zero, [RX] otherwise) and returns with
    every field unchanged. *)
Theorem C4_keepAlive_single_mode_frame (self : AirDcc) :
  exists out,
    keepAlive self = Ret tt self out /\
    transactions (_enable_pin self) out =
      Some [[if truthy (_transmit self) then TX else RX]] /\
    bytes_sent out = [if truthy (_transmit self) then TX else RX].
Proof.
  eexists. split; [apply keepAlive_run|].
  split; [apply transactions_keepAlive_log|].
  unfold keepAlive_log. rewrite !bytes_sent_app, bytes_sent_bracket.
  reflexivity.
Qed.

(** C5: [n] calls of [keepAlive] in a row, with nothing in between, all
    have the outcome of the first call: the same log, event for event, and
    the fields as they were; the log of the whole run is [n] copies of the
    log of one call. *)
Theorem C5_keepAlive_repeated_identical (n : nat) (self : AirDcc) :
  keepAlive_times n self = repeat (keepAlive self) n /\
  exec_all (repeat KeepAlive n) self =
    Ret tt self (concat (repeat (out_of (keepAlive self)) n)).
Proof.
  split.
  - induction n as [|n IH]; [reflexivity|].
    cbn [keepAlive_times repeat]. rewrite keepAlive_run at 2.
    rewrite IH. reflexivity.
  - induction n as [|n IH]; [reflexivity|].
    cbn [repeat exec_all exec concat]. unfold bind.
    rewrite keepAlive_run in *. cbn [out_of] in *.
    rewrite IH. reflexivity.
Qed.

(** C10: two handles on the same select pin that agree on the direction
    (both [_transmit] zero or both not zero) get the same log from
    [keepAlive], event for event, whatever their stored channels and
    powers are; on different select pins the bytes sent are still the
    same. *)
Theorem C10_keepAlive_depends_on_direction_only
    (pin pin' tr1 tr2 c1 c2 p1 p2 : Z) :
  truthy tr1 = truthy tr2 ->
  out_of (keepAlive (mkAirDcc pin tr1 c1 p1)) =
    out_of (keepAlive (mkAirDcc pin tr2 c2 p2)) /\
  bytes_sent (out_of (keepAlive (mkAirDcc pin tr1 c1 p1))) =
    bytes_sent (out_of (keepAlive (mkAirDcc pin' tr2 c2 p2))).
Proof.
  intros H. rewrite !keepAlive_run. cbn [out_of _enable_pin _transmit].
  unfold mode_of. rewrite H. split; [reflexivity|].
  unfold keepAlive_log. rewrite !bytes_sent_app, !bytes_sent_bracket.
  reflexivity.
Qed.

Lemma C10_keepAlive_depends_on_direction_only_witness :
  truthy 1 = truthy 255 /\
  out_of (keepAlive (mkAirDcc 10 1 3 2)) =
    out_of (keepAlive (mkAirDcc 10 255 16 10)) /\
  bytes_sent (out_of (keepAlive (mkAirDcc 10 1 3 2))) =
    bytes_sent (out_of (keepAlive (mkAirDcc 9 255 16 10))).
Proof.
  split; [reflexivity|].
  apply (C10_keepAlive_depends_on_direction_only 10 9 1 255 3 16 2 10).
  reflexivity.
Defined.

(** ** One operation on ordinals inside the tables *)

Lemma mode_of_b2z (t : bool) : mode_of (Z.b2z t) = if t then TX else RX.
Proof. destruct t; reflexivity. Qed.

Lemma exec_valid (o : op) (self : AirDcc) :
  valid_in self o ->
  exists out fs,
    exec o self = Ret tt (stored_after self o) out /\
    transactions (_enable_pin self) out = Some fs /\
    bytes_sent out = concat fs /\
    Forall (fun f => f = initData \/ (length f <= 2)%nat) fs /\
    (forall init, pin_level (_enable_pin self) init out = HIGH) /\
    settings_used out = [settings_8MHz_MSB_MODE0] /\
    (forall d,
        match o with StartModem _ _ _ => True | _ => reflects self d end ->
        reflects (stored_after self o) (fold_left push fs d)).
Proof.
  destruct o as [c t p|c|]; cbn [valid_in exec stored_after].
  - (* startModem *)
    intros [Hc Hp]. destruct (at_index_channels c Hc) as [cc Hcc].
    assert (Hpow : exists pc, (if t then at_index powers p else Some 0x89) = Some pc).
    { destruct t; [apply at_index_powers, Hp; reflexivity | eauto]. }
    destruct Hpow as [pc Hpc].
    exists (startModem_log (_enable_pin self) pc cc (if t then TX else RX)).
    exists [[STOP]; initData; [PATABLE; pc]; [CHAN; cc]; [if t then TX else RX]].
    split.
    { rewrite startModem_run, Hcc. destruct t.
      - rewrite Hpc. reflexivity.
      - injection Hpc as <-. reflexivity. }
    split; [apply transactions_startModem_log|].
    split.
    { unfold startModem_log. rewrite !bytes_sent_app, !bytes_sent_bracket.
      reflexivity. }
    split.
    { repeat apply Forall_cons; try apply Forall_nil; cbn [length];
        try (right; lia). left; reflexivity. }
    split; [intros init; apply pin_level_startModem_log|].
    split; [apply settings_used_logs|].
    intros d _.
    change (fold_left push
              [[STOP]; initData; [PATABLE; pc]; [CHAN; cc];
               [if t then TX else RX]] d)
      with (mkPushed (Some pc) (Some cc) (Some (if t then TX else RX))).
    unfold reflects; cbn [_channel _transmit _power p_channel p_mode p_power].
    split; [eauto|]. split; [rewrite mode_of_b2z; reflexivity|].
    destruct t; [eauto | discriminate].
  - (* changeChannel *)
    intros [Hc Hp]. destruct (at_index_channels c Hc) as [cc Hcc].
    destruct (at_index_powers _ Hp) as [pc Hpc].
    exists (changeChannel_log (_enable_pin self) pc cc (mode_of (_transmit self))).
    exists [[STOP]; [PATABLE; pc]; [CHAN; cc]; [mode_of (_transmit self)]].
    split; [apply changeChannel_defined; assumption|].
    split; [apply transactions_changeChannel_log|].
    split.
    { unfold changeChannel_log. rewrite !bytes_sent_app, !bytes_sent_bracket.
      reflexivity. }
    split; [repeat apply Forall_cons; try apply Forall_nil; cbn [length];
            right; lia|].
    split; [intros init; apply pin_level_changeChannel_log|].
    split; [apply settings_used_logs with (pc := pc) (cc := cc)|].
    intros d _.
    change (fold_left push
              [[STOP]; [PATABLE; pc]; [CHAN; cc]; [mode_of (_transmit self)]] d)
      with (mkPushed (Some pc) (Some cc) (Some (mode_of (_transmit self)))).
    unfold reflects; cbn [_channel _transmit _power p_channel p_mode p_power].
    split; [eauto|]. split; [reflexivity|]. eauto.
  - (* keepAlive *)
    intros _.
    exists (keepAlive_log (_enable_pin self) (mode_of (_transmit self))).
    exists [[mode_of (_transmit self)]].
    split; [apply keepAlive_run|].
    split; [apply transactions_keepAlive_log|].
    split.
    { unfold keepAlive_log. rewrite !bytes_sent_app, !bytes_sent_bracket.
      reflexivity. }
    split; [repeat apply Forall_cons; try apply Forall_nil; cbn [length];
            right; lia|].
    split; [intros init; apply pin_level_keepAlive_log|].
    split; [apply (settings_used_logs (_enable_pin self) 0 0)|].
    intros d (Hch & _ & Hpw).
    cbn [fold_left push].
    unfold reflects; cbn [p_channel p_mode p_power].
    split; [exact Hch|]. split; [reflexivity | exact Hpw].
Qed.

Lemma stored_after_pin (o : op) (self : AirDcc) :
  _enable_pin (stored_after self o) = _enable_pin self.
Proof. destruct o; reflexivity. Qed.

Lemma exec_all_valid (ops : list op) : forall (self : AirDcc) (d : pushed),
  all_valid self ops ->
  reflects self d ->
  exists out fs,
    exec_all ops self = Ret tt (fold_left stored_after ops self) out /\
    transactions (_enable_pin self) out = Some fs /\
    reflects (fold_left stored_after ops self) (fold_left push fs d).
Proof.
  induction ops as [|o ops IH]; intros self d Hv Hr.
  - exists [], []. repeat split; assumption || reflexivity || apply Hr.
  - destruct Hv as [Hv Hrest].
    destruct (exec_valid o self Hv) as (out1 & fs1 & He & Ht & _ & _ & _ & _ & Hd).
    assert (Hr1 : reflects (stored_after self o) (fold_left push fs1 d)).
    { apply Hd. destruct o; [exact I | exact Hr | exact Hr]. }
    destruct (IH _ _ Hrest Hr1) as (out2 & fs2 & He2 & Ht2 & Hr2).
    rewrite stored_after_pin in Ht2.
    exists (out1 ++ out2), (fs1 ++ fs2).
    split.
    { cbn [exec_all fold_left]. unfold bind. rewrite He, He2. reflexivity. }
    split; [apply transactions_app; assumption|].
    rewrite fold_left_app. exact Hr2.
Qed.

Lemma at_index_Some_range (tbl : list Z) (i v : Z) :
  at_index tbl i = Some v -> 0 <= i < Z.of_nat (length tbl).
Proof.
  unfold at_index.
  destruct (0 <=? i) eqn:E1; [|discriminate].
  destruct (i <? Z.of_nat (length tbl)) eqn:E2; [|discriminate].
  intros _. apply Z.leb_le in E1. apply Z.ltb_lt in E2. lia.
Qed.

(** X1: an operation completes exactly when the ordinals it reads a table
    with are inside the table. *)
Lemma exec_completes_iff (o : op) (self : AirDcc) :
  (exists out, exec o self = Ret tt (stored_after self o) out) <->
  valid_in self o.
Proof.
  split.
  - intros [out H]. destruct o as [c t p|c|]; cbn [exec valid_in] in *.
    + rewrite startModem_run in H. cbv zeta in H.
      destruct (at_index channels c) as [cc|] eqn:Hc; [|discriminate].
      apply at_index_Some_range in Hc. cbn in Hc.
      split; [unfold valid_channel; lia|]. intros ->.
      destruct (at_index powers p) as [pc|] eqn:Hp; [|discriminate].
      apply at_index_Some_range in Hp. cbn in Hp. unfold valid_power; lia.
    + rewrite changeChannel_run in H. cbv zeta in H.
      destruct (at_index channels c) as [cc|] eqn:Hc; [|discriminate].
      destruct (at_index powers (_power self)) as [pc|] eqn:Hp; [|discriminate].
      apply at_index_Some_range in Hc, Hp. cbn in Hc, Hp.
      unfold valid_channel, valid_power; lia.
    + exact I.
  - intros Hv. destruct (exec_valid o self Hv) as (out & fs & He & _).
    exists out. exact He.
Qed.

(** C6, as the code has it: ordinals 16 and 10 resolve to the last entries
    of the tables, 0x37 and 0xC0, and [startModem(16, true, 10)] sends them.
    Ordinals 17 and 11 are not rejected: [startModem] checks no bound.
    With channel 17, in either direction, it stores its arguments and then
    reads past [channels]; with power 11 in transmit direction, where
    [powers] is read, it stores its arguments and reads past [powers]. *)
Theorem C6_table_bounds_unchecked :
  at_index channels 16 = Some 0x37 /\ last channels 0 = 0x37 /\
  at_index powers 10 = Some 0xC0 /\ last powers 0 = 0xC0 /\
  (forall self, exists out,
      startModem 16 true 10 self =
        Ret tt (mkAirDcc (_enable_pin self) 1 16 10) out /\
      transactions (_enable_pin self) out =
        Some [[STOP]; initData; [PATABLE; 0xC0]; [CHAN; 0x37]; [TX]]) /\
  at_index channels 17 = None /\ at_index powers 11 = None /\
  (forall self t p,
      startModem 17 t p self =
        Undefined (mkAirDcc (_enable_pin self) (Z.b2z t) 17 p) []) /\
  (forall self,
      startModem 16 true 11 self =
        Undefined (mkAirDcc (_enable_pin self) 1 16 11) []).
Proof.
  split; [reflexivity|]. split; [reflexivity|].
  split; [reflexivity|]. split; [reflexivity|].
  split.
  { intros self. eexists. split.
    - apply (startModem_transmit 16 10 self 0x37 0xC0); reflexivity.
    - apply transactions_startModem_log. }
  split; [reflexivity|]. split; [reflexivity|].
  split; [intros self t p; rewrite startModem_run; reflexivity|].
  intros self; rewrite startModem_run; reflexivity.
Qed.

(** C6, against rejection: on select pin 10, [startModem(17, false, 0)] and
    [startModem(0, true, 11)] are not rejected; each stores its arguments
    and reads past a fixed table. *)
Lemma C6_out_of_range_not_rejected :
  ~ rejected (startModem 17 false 0) (mkAirDcc 10 0 0 0) /\
  reads_past_table (startModem 17 false 0) (mkAirDcc 10 0 0 0) /\
  self_of (startModem 17 false 0 (mkAirDcc 10 0 0 0)) = mkAirDcc 10 0 17 0 /\
  ~ rejected (startModem 0 true 11) (mkAirDcc 10 0 0 0) /\
  reads_past_table (startModem 0 true 11) (mkAirDcc 10 0 0 0) /\
  self_of (startModem 0 true 11 (mkAirDcc 10 0 0 0)) = mkAirDcc 10 1 0 11.
Proof.
  unfold rejected, reads_past_table.
  split; [discriminate|].
  split; [eexists; eexists; reflexivity|].
  split; [reflexivity|].
  split; [discriminate|].
  split; [eexists; eexists; reflexivity|].
  reflexivity.
Qed.

(** C7, for the stored power in receive direction: after
    [startModem(6, false, 0)] on select pin 10 the fields hold power 0,
    whose code is [powers[0] = 0x03], while the power register was last
    written the fixed receive code 0x89; the stored power is not the value
    last pushed. *)
Lemma C7_receive_power_is_not_the_stored_one :
  exists out fs,
    exec_all [StartModem 6 false 0] (mkAirDcc 10 0 0 0) =
      Ret tt (mkAirDcc 10 0 6 0) out /\
    transactions 10 out = Some fs /\
    p_power (pushed_by fs) = Some 0x89 /\
    at_index powers (_power (mkAirDcc 10 0 6 0)) = Some 0x03 /\
    ~ (exists pc, at_index powers (_power (mkAirDcc 10 0 6 0)) = Some pc /\
                  p_power (pushed_by fs) = Some pc).
Proof.
  eexists. eexists.
  split; [reflexivity|]. split; [reflexivity|].
  split; [reflexivity|]. split; [reflexivity|].
  intros (pc & H1 & H2). cbn in H1, H2. congruence.
Qed.

(** C7, as the code has it: along every sequence of operations that begins
    with [startModem] and stays inside the tables, every operation
    completes, the fields end up as documented ([startModem] stores its
    three arguments, [changeChannel] the new channel only, [keepAlive]
    nothing), and they agree with what the device was last told: the
    channel register holds the code of the stored channel, the last strobe
    is the mode of the stored direction, and in transmit direction the
    power register holds the code of the stored power. *)
Theorem C7_fields_reflect_last_pushed
    (c : Z) (t : bool) (p : Z) (ops : list op) (self : AirDcc) :
  all_valid self (StartModem c t p :: ops) ->
  exists out fs,
    exec_all (StartModem c t p :: ops) self =
      Ret tt (fold_left stored_after (StartModem c t p :: ops) self) out /\
    transactions (_enable_pin self) out = Some fs /\
    reflects (fold_left stored_after (StartModem c t p :: ops) self)
             (pushed_by fs).
Proof.
  intros [Hv Hrest].
  destruct (exec_valid _ self Hv) as (out1 & fs1 & He & Ht & _ & _ & _ & _ & Hd).
  specialize (Hd (mkPushed None None None) I).
  destruct (exec_all_valid ops _ _ Hrest Hd) as (out2 & fs2 & He2 & Ht2 & Hr2).
  rewrite stored_after_pin in Ht2.
  exists (out1 ++ out2), (fs1 ++ fs2).
  split.
  { cbn [exec_all fold_left]. unfold bind. rewrite He, He2. reflexivity. }
  split; [apply transactions_app; assumption|].
  unfold pushed_by. rewrite fold_left_app. exact Hr2.
Qed.

Lemma C7_fields_reflect_last_pushed_witness :
  all_valid (mkAirDcc 10 0 0 0)
    (StartModem 6 true 3 :: [KeepAlive; ChangeChannel 16; KeepAlive]) /\
  exists out fs,
    exec_all (StartModem 6 true 3 :: [KeepAlive; ChangeChannel 16; KeepAlive])
             (mkAirDcc 10 0 0 0) =
      Ret tt (fold_left stored_after
                (StartModem 6 true 3 :: [KeepAlive; ChangeChannel 16; KeepAlive])
                (mkAirDcc 10 0 0 0)) out /\
    transactions (_enable_pin (mkAirDcc 10 0 0 0)) out = Some fs /\
    reflects (fold_left stored_after
                (StartModem 6 true 3 :: [KeepAlive; ChangeChannel 16; KeepAlive])
                (mkAirDcc 10 0 0 0))
             (pushed_by fs).
Proof.
  assert (H : all_valid (mkAirDcc 10 0 0 0)
                (StartModem 6 true 3 :: [KeepAlive; ChangeChannel 16; KeepAlive])).
  { cbn; unfold valid_channel, valid_power; repeat split; lia. }
  split; [exact H|].
  apply (C7_fields_reflect_last_pushed 6 true 3
           [KeepAlive; ChangeChannel 16; KeepAlive] (mkAirDcc 10 0 0 0)).
  exact H.
Defined.



(** C9: for every input, in range or not, [startModem] and [changeChannel]
    have stored their arguments in the fields in whatever outcome they
    have: either the call completes with the fields stored and a log that
    is not empty, or it stops at a table read with the fields already
    stored and nothing yet sent.  No input makes either call return with
    the fields as they were and nothing sent. *)
Theorem C9_fields_stored_before_table_reads
    (c p : Z) (t : bool) (self : AirDcc) :
  self_of (startModem c t p self) = stored_after self (StartModem c t p) /\
  self_of (changeChannel c self) = stored_after self (ChangeChannel c) /\
  ((exists e rest,
       startModem c t p self =
         Ret tt (stored_after self (StartModem c t p)) (e :: rest)) \/
   startModem c t p self =
     Undefined (stored_after self (StartModem c t p)) []) /\
  ((exists e rest,
       changeChannel c self =
         Ret tt (stored_after self (ChangeChannel c)) (e :: rest)) \/
   changeChannel c self =
     Undefined (stored_after self (ChangeChannel c)) []) /\
  (at_index channels c = None <->
   startModem c false p self =
     Undefined (stored_after self (StartModem c false p)) []) /\
  ~ rejected (startModem c t p) self /\
  ~ rejected (changeChannel c) self.
Proof.
  unfold rejected. rewrite !startModem_run, changeChannel_run.
  cbn [stored_after Z.b2z]. cbv zeta.
  destruct (at_index channels c) as [cc|].
  - destruct (at_index powers (_power self)) as [pc|];
      destruct t; try destruct (at_index powers p) as [pc'|];
      cbn [self_of];
      repeat match goal with
             | |- _ /\ _ => split
             | |- _ <-> _ => split; intros; discriminate
             | |- ~ _ => discriminate
             | |- _ = _ => reflexivity
             | |- (exists _ _, Ret _ _ _ = _) \/ _ =>
                 left; eexists; eexists; reflexivity
             | |- _ \/ Undefined _ _ = _ => right; reflexivity
             end.
  - cbn [self_of].
    repeat match goal with
           | |- _ /\ _ => split
           | |- _ <-> _ => split; intros; reflexivity
           | |- ~ _ => discriminate
           | |- _ = _ => reflexivity
           | |- _ \/ Undefined _ _ = _ => right; reflexivity
           end.
Qed.

(** * Further properties of the driver *)

Lemma pins_touched_app (es1 es2 : list event) :
  pins_touched (es1 ++ es2) = pins_touched es1 ++ pins_touched es2.
Proof.
  induction es1 as [|e es1 IH]; [reflexivity|].
  destruct e; cbn [app pins_touched]; rewrite ?IH; reflexivity.
Qed.

Lemma pins_touched_bracket (pin : Z) (f : frame) :
  pins_touched (bracket pin f) = [pin; pin].
Proof.
  unfold bracket. cbn [pins_touched]. rewrite pins_touched_app.
  replace (pins_touched (map ESPI_transfer f)) with (@nil Z); [reflexivity|].
  induction f as [|x f IH]; [reflexivity | exact IH].
Qed.

Lemma delays_app (es1 es2 : list event) :
  delays (es1 ++ es2) = delays es1 ++ delays es2.
Proof.
  induction es1 as [|e es1 IH]; [reflexivity|].
  destruct e; cbn [app delays]; rewrite ?IH; reflexivity.
Qed.

Lemma delays_bracket (pin : Z) (f : frame) : delays (bracket pin f) = [].
Proof.
  unfold bracket. cbn [delays]. rewrite delays_app.
  induction f as [|x f IH]; [reflexivity | exact IH].
Qed.

Lemma exec_keeps_select_pin (o : op) (self : AirDcc) :
  _enable_pin (self_of (exec o self)) = _enable_pin self /\
  Forall (fun p => p = _enable_pin self) (pins_touched (out_of (exec o self))).
Proof.
  destruct o as [c t p|c|]; cbn [exec].
  - rewrite startModem_run. cbv zeta.
    destruct (at_index channels c) as [cc|]; [|split; [reflexivity|constructor]].
    assert (H : forall pc m,
               Forall (fun q => q = _enable_pin self)
                 (pins_touched (startModem_log (_enable_pin self) pc cc m))).
    { intros pc m. unfold startModem_log.
      rewrite !pins_touched_app, !pins_touched_bracket.
      repeat constructor. }
    destruct t; [destruct (at_index powers p) as [pc|]|];
      cbn [self_of out_of _enable_pin pins_touched];
      split; try reflexivity; try apply H; constructor.
  - rewrite changeChannel_run. cbv zeta.
    destruct (at_index channels c) as [cc|]; [|split; [reflexivity|constructor]].
    destruct (at_index powers (_power self)) as [pc|];
      [|split; [reflexivity|constructor]].
    cbn [self_of out_of _enable_pin]. split; [reflexivity|].
    unfold changeChannel_log.
    rewrite !pins_touched_app, !pins_touched_bracket. repeat constructor.
  - rewrite keepAlive_run. cbn [self_of out_of]. split; [reflexivity|].
    unfold keepAlive_log.
    rewrite !pins_touched_app, !pins_touched_bracket. repeat constructor.
Qed.

Lemma exec_all_keeps_select_pin (ops : list op) : forall self : AirDcc,
  _enable_pin (self_of (exec_all ops self)) = _enable_pin self /\
  Forall (fun p => p = _enable_pin self)
         (pins_touched (out_of (exec_all ops self))).
Proof.
  induction ops as [|o ops IH]; intros self.
  - split; [reflexivity|constructor].
  - cbn [exec_all]. unfold bind.
    destruct (exec_keeps_select_pin o self) as [Hp Hf].
    destruct (exec o self) as [[] self1 o1|self1 o1];
      cbn [self_of out_of] in Hp, Hf; [|split; assumption].
    destruct (IH self1) as [Hp2 Hf2]. rewrite Hp in Hp2, Hf2.
    destruct (exec_all ops self1) as [[] self2 o2|self2 o2];
      cbn [self_of out_of] in *;
      (split; [assumption|]);
      rewrite pins_touched_app; apply Forall_app; split; assumption.
Qed.

(** X2: an object constructed on a pin keeps that pin for good: after the
    constructor and any sequence of operations, whether they complete or
    stop at a table read, [_enable_pin] is the constructor's argument and
    every [pinMode] and [digitalWrite] of the log is on that pin. *)
Theorem X2_only_the_select_pin_is_driven
    (pin : Z) (ops : list op) (self : AirDcc) :
  _enable_pin (self_of ((AirDcc_ctor pin ;; exec_all ops) self)) = pin /\
  Forall (fun p => p = pin)
         (pins_touched (out_of ((AirDcc_ctor pin ;; exec_all ops) self))).
Proof.
  cbv beta iota zeta delta [bind AirDcc_ctor set_enable_pin pinMode emit app].
  pose proof (exec_all_keeps_select_pin ops
                (mkAirDcc pin (_transmit self) (_channel self) (_power self)))
    as [Hp Hf].
  cbn [_enable_pin] in Hp, Hf.
  destruct (exec_all ops _) as [[] s1 o1|s1 o1]; cbn [self_of out_of] in *;
    (split; [exact Hp|]); cbn [pins_touched]; constructor; auto.
Qed.

(** X3: [changeChannel], on a channel inside the table and a stored power
    inside the table, sends four frames and nothing else: stop, the power
    register with [powers[_power]] in either direction, the channel
    register with [channels[c]], and the strobe of the stored direction;
    six bytes in all, no delay, and only [_channel] changes. *)
Theorem X3_changeChannel_sends_four_frames (c : Z) (self : AirDcc) :
  valid_channel c ->
  valid_power (_power self) ->
  exists cc pc out,
    at_index channels c = Some cc /\
    at_index powers (_power self) = Some pc /\
    changeChannel c self =
      Ret tt (mkAirDcc (_enable_pin self) (_transmit self) c (_power self)) out /\
    transactions (_enable_pin self) out =
      Some [[STOP]; [PATABLE; pc]; [CHAN; cc];
            [if truthy (_transmit self) then TX else RX]] /\
    bytes_sent out =
      [STOP; PATABLE; pc; CHAN; cc; if truthy (_transmit self) then TX else RX] /\
    delays out = [].
Proof.
  intros Hc Hp.
  destruct (at_index_channels c Hc) as [cc Hcc].
  destruct (at_index_powers _ Hp) as [pc Hpc].
  exists cc, pc. eexists.
  split; [exact Hcc|]. split; [exact Hpc|].
  split; [apply changeChannel_defined; eassumption|].
  split; [apply transactions_changeChannel_log|].
  unfold changeChannel_log. split.
  - rewrite !bytes_sent_app, !bytes_sent_bracket. reflexivity.
  - rewrite !delays_app, !delays_bracket. reflexivity.
Qed.

Lemma X3_changeChannel_sends_four_frames_witness :
  valid_channel 16 /\ valid_power (_power (mkAirDcc 10 0 6 2)) /\
  exists cc pc out,
    at_index channels 16 = Some cc /\
    at_index powers (_power (mkAirDcc 10 0 6 2)) = Some pc /\
    changeChannel 16 (mkAirDcc 10 0 6 2) =
      Ret tt (mkAirDcc (_enable_pin (mkAirDcc 10 0 6 2))
                (_transmit (mkAirDcc 10 0 6 2)) 16
                (_power (mkAirDcc 10 0 6 2))) out /\
    transactions (_enable_pin (mkAirDcc 10 0 6 2)) out =
      Some [[STOP]; [PATABLE; pc]; [CHAN; cc];
            [if truthy (_transmit (mkAirDcc 10 0 6 2)) then TX else RX]] /\
    bytes_sent out =
      [STOP; PATABLE; pc; CHAN; cc;
       if truthy (_transmit (mkAirDcc 10 0 6 2)) then TX else RX] /\
    delays out = [].
Proof.
  split; [unfold valid_channel; lia|].
  split; [unfold valid_power; cbn; lia|].
  apply (X3_changeChannel_sends_four_frames 16 (mkAirDcc 10 0 6 2)).
  - unfold valid_channel; lia.
  - unfold valid_power; cbn; lia.
Defined.

Lemma exec_all_keepAlives (n : nat) (self : AirDcc) :
  exec_all (repeat KeepAlive n) self =
  Ret tt self
      (concat (repeat (keepAlive_log (_enable_pin self)
                                     (mode_of (_transmit self))) n)).
Proof.
  induction n as [|n IH]; [reflexivity|].
  cbn [repeat exec_all exec concat]. unfold bind.
  rewrite keepAlive_run, IH. reflexivity.
Qed.

Lemma transactions_keepAlives (pin m : Z) (n : nat) :
  transactions pin (concat (repeat (keepAlive_log pin m) n)) =
  Some (repeat [m] n).
Proof.
  induction n as [|n IH]; [reflexivity|].
  cbn [repeat concat].
  apply (transactions_app pin _ _ [[m]] (repeat [m] n));
    [apply transactions_keepAlive_log | exact IH].
Qed.

Lemma delays_keepAlives (pin m : Z) (n : nat) :
  delays (concat (repeat (keepAlive_log pin m) n)) = [].
Proof.
  induction n as [|n IH]; [reflexivity|].
  cbn [repeat concat]. rewrite delays_app, IH.
  unfold keepAlive_log. rewrite !delays_app, delays_bracket. reflexivity.
Qed.

(** X4: [startModem] on ordinals inside the tables followed by [n] calls of
    [keepAlive] completes and sends the five start-up frames followed by
    [n] one-byte frames that repeat the strobe of the start-up; the channel
    code is sent once, and the only delay of the whole run is the 100 ms of
    the start-up. *)
Theorem X4_start_then_keepAlives
    (c : Z) (t : bool) (p : Z) (n : nat) (self : AirDcc) :
  valid_channel c ->
  (t = true -> valid_power p) ->
  exists cc pc out,
    at_index channels c = Some cc /\
    (if t then at_index powers p else Some 0x89) = Some pc /\
    exec_all (StartModem c t p :: repeat KeepAlive n) self =
      Ret tt (mkAirDcc (_enable_pin self) (Z.b2z t) c p) out /\
    transactions (_enable_pin self) out =
      Some ([[STOP]; initData; [PATABLE; pc]; [CHAN; cc];
             [if t then TX else RX]]
            ++ repeat [if t then TX else RX] n) /\
    delays out = [100].
Proof.
  intros Hc Hp. destruct (at_index_channels c Hc) as [cc Hcc].
  assert (Hpow : exists pc, (if t then at_index powers p else Some 0x89) = Some pc).
  { destruct t; [apply at_index_powers, Hp; reflexivity | eauto]. }
  destruct Hpow as [pc Hpc]. exists cc, pc.
  assert (Hs : startModem c t p self =
               Ret tt (mkAirDcc (_enable_pin self) (Z.b2z t) c p)
                   (startModem_log (_enable_pin self) pc cc
                                   (if t then TX else RX))).
  { rewrite startModem_run, Hcc. destruct t.
    - rewrite Hpc. reflexivity.
    - injection Hpc as <-. reflexivity. }
  eexists. split; [exact Hcc|]. split; [exact Hpc|].
  split.
  { cbn [exec_all exec]. unfold bind. rewrite Hs, exec_all_keepAlives.
    cbn [_enable_pin _transmit]. rewrite mode_of_b2z. reflexivity. }
  split.
  - apply transactions_app;
      [apply transactions_startModem_log | apply transactions_keepAlives].
  - rewrite delays_app, delays_keepAlives. unfold startModem_log.
    rewrite !delays_app, !delays_bracket. reflexivity.
Qed.

Lemma X4_start_then_keepAlives_witness :
  valid_channel 6 /\ (false = true -> valid_power 0) /\
  exists cc pc out,
    at_index channels 6 = Some cc /\
    (if false then at_index powers 0 else Some 0x89) = Some pc /\
    exec_all (StartModem 6 false 0 :: repeat KeepAlive 3) (mkAirDcc 10 0 0 0) =
      Ret tt (mkAirDcc (_enable_pin (mkAirDcc 10 0 0 0)) (Z.b2z false) 6 0) out /\
    transactions (_enable_pin (mkAirDcc 10 0 0 0)) out =
      Some ([[STOP]; initData; [PATABLE; pc]; [CHAN; cc];
             [if false then TX else RX]]
            ++ repeat [if false then TX else RX] 3) /\
    delays out = [100].
Proof.
  split; [unfold valid_channel; lia|].
  split; [discriminate|].
  apply (X4_start_then_keepAlives 6 false 0 3 (mkAirDcc 10 0 0 0)).
  - unfold valid_channel; lia.
  - discriminate.
Defined.

(** X5: in transmit direction, changing to channel [c] after a start on
    another channel leaves the object and the device as a start on [c]
    does: the same fields, and the same last power code, channel code and
    strobe sent. *)
Theorem X5_changeChannel_as_restart_in_transmit
    (c0 c p : Z) (self : AirDcc) :
  valid_channel c0 ->
  valid_channel c ->
  valid_power p ->
  exists self1 out1 out2 fs1 fs2,
    exec_all [StartModem c0 true p; ChangeChannel c] self = Ret tt self1 out1 /\
    exec_all [StartModem c true p] self = Ret tt self1 out2 /\
    self1 = mkAirDcc (_enable_pin self) 1 c p /\
    transactions (_enable_pin self) out1 = Some fs1 /\
    transactions (_enable_pin self) out2 = Some fs2 /\
    pushed_by fs1 = pushed_by fs2 /\
    (length fs1 = 9 /\ length fs2 = 5)%nat.
Proof.
  intros Hc0 Hc Hp.
  destruct (at_index_channels c0 Hc0) as [cc0 Hcc0].
  destruct (at_index_channels c Hc) as [cc Hcc].
  destruct (at_index_powers p Hp) as [pc Hpc].
  eexists. eexists. eexists.
  exists ([[STOP]; initData; [PATABLE; pc]; [CHAN; cc0]; [TX]]
          ++ [[STOP]; [PATABLE; pc]; [CHAN; cc]; [TX]]).
  exists ([[STOP]; initData; [PATABLE; pc]; [CHAN; cc]; [TX]] ++ []).
  split.
  { cbn [exec_all exec]. unfold bind, ret.
    rewrite (startModem_transmit c0 p self cc0 pc Hcc0 Hpc).
    rewrite (changeChannel_defined c (mkAirDcc (_enable_pin self) 1 c0 p)
               cc pc Hcc Hpc).
    reflexivity. }
  split.
  { cbn [exec_all exec]. unfold bind, ret.
    rewrite (startModem_transmit c p self cc pc Hcc Hpc). reflexivity. }
  split; [reflexivity|].
  split.
  { rewrite app_nil_r. apply transactions_app.
    - apply transactions_startModem_log.
    - apply transactions_changeChannel_log. }
  split.
  { apply transactions_app; [apply transactions_startModem_log | reflexivity]. }
  split; reflexivity || (split; reflexivity).
Qed.

Lemma X5_changeChannel_as_restart_in_transmit_witness :
  valid_channel 0 /\ valid_channel 16 /\ valid_power 10 /\
  exists self1 out1 out2 fs1 fs2,
    exec_all [StartModem 0 true 10; ChangeChannel 16] (mkAirDcc 10 0 0 0) =
      Ret tt self1 out1 /\
    exec_all [StartModem 16 true 10] (mkAirDcc 10 0 0 0) = Ret tt self1 out2 /\
    self1 = mkAirDcc (_enable_pin (mkAirDcc 10 0 0 0)) 1 16 10 /\
    transactions (_enable_pin (mkAirDcc 10 0 0 0)) out1 = Some fs1 /\
    transactions (_enable_pin (mkAirDcc 10 0 0 0)) out2 = Some fs2 /\
    pushed_by fs1 = pushed_by fs2 /\
    (length fs1 = 9 /\ length fs2 = 5)%nat.
Proof.
  split; [unfold valid_channel; lia|].
  split; [unfold valid_channel; lia|].
  split; [unfold valid_power; lia|].
  apply (X5_changeChannel_as_restart_in_transmit 0 16 10 (mkAirDcc 10 0 0 0)).
  - unfold valid_channel; lia.
  - unfold valid_channel; lia.
  - unfold valid_power; lia.
Defined.

Lemma NoDup_channels : NoDup channels.
Proof.
  unfold channels.
  repeat (apply NoDup_cons;
          [intros H; cbn in H;
           repeat (destruct H as [H|H]; [discriminate H|]); exact H|]).
  apply NoDup_nil.
Qed.

Lemma NoDup_powers : NoDup powers.
Proof.
  unfold powers.
  repeat (apply NoDup_cons;
          [intros H; cbn in H;
           repeat (destruct H as [H|H]; [discriminate H|]); exact H|]).
  apply NoDup_nil.
Qed.

Lemma at_index_injective (tbl : list Z) (i j v : Z) :
  NoDup tbl ->
  at_index tbl i = Some v ->
  at_index tbl j = Some v ->
  i = j.
Proof.
  intros Hnd Hi Hj.
  pose proof (at_index_Some_range _ _ _ Hi) as Ri.
  pose proof (at_index_Some_range _ _ _ Hj) as Rj.
  unfold at_index in Hi, Hj.
  destruct ((0 <=? i) && (i <? Z.of_nat (length tbl))); [|discriminate].
  destruct ((0 <=? j) && (j <? Z.of_nat (length tbl))); [|discriminate].
  assert (E : Z.to_nat i = Z.to_nat j).
  { apply (proj1 (NoDup_nth_error tbl) Hnd); [lia | congruence]. }
  lia.
Qed.

(** X6: the bus traffic of a start in transmit direction tells the channel
    and the power apart: two starts on ordinals inside the tables that send
    the same log were given the same channel and the same power (no two
    channel ordinals share a channel code, no two power ordinals a power
    code). *)
Theorem X6_transmit_start_log_determines_arguments
    (c1 c2 p1 p2 : Z) (self : AirDcc) :
  valid_channel c1 -> valid_channel c2 ->
  valid_power p1 -> valid_power p2 ->
  out_of (startModem c1 true p1 self) = out_of (startModem c2 true p2 self) ->
  c1 = c2 /\ p1 = p2.
Proof.
  intros Hc1 Hc2 Hp1 Hp2.
  destruct (at_index_channels c1 Hc1) as [cc1 Hcc1].
  destruct (at_index_channels c2 Hc2) as [cc2 Hcc2].
  destruct (at_index_powers p1 Hp1) as [pc1 Hpc1].
  destruct (at_index_powers p2 Hp2) as [pc2 Hpc2].
  rewrite (startModem_transmit c1 p1 self cc1 pc1 Hcc1 Hpc1).
  rewrite (startModem_transmit c2 p2 self cc2 pc2 Hcc2 Hpc2).
  cbn [out_of]. intros E.
  apply (f_equal (transactions (_enable_pin self))) in E.
  rewrite !transactions_startModem_log in E.
  injection E as Ep Ec. subst pc2 cc2.
  split.
  - exact (at_index_injective channels c1 c2 cc1 NoDup_channels Hcc1 Hcc2).
  - exact (at_index_injective powers p1 p2 pc1 NoDup_powers Hpc1 Hpc2).
Qed.

Lemma X6_transmit_start_log_determines_arguments_witness :
  valid_channel 3 /\ valid_channel 3 /\ valid_power 5 /\ valid_power 5 /\
  out_of (startModem 3 true 5 (mkAirDcc 10 0 0 0)) =
    out_of (startModem 3 true 5 (mkAirDcc 10 0 0 0)) /\
  3 = 3 /\ 5 = 5.
Proof.
  assert (Hc : valid_channel 3) by (unfold valid_channel; lia).
  assert (Hp : valid_power 5) by (unfold valid_power; lia).
  split; [exact Hc|]. split; [exact Hc|].
  split; [exact Hp|]. split; [exact Hp|].
  split; [reflexivity|].
  apply (X6_transmit_start_log_determines_arguments 3 3 5 5 (mkAirDcc 10 0 0 0));
    auto.
Defined.

(** * Properties of the example sketch *)

Module SketchProofs.
Import Sketch SketchLogs.
Local Open Scope sk_scope.

Lemma sbind_SRet {A B} (m : SM A) (f : A -> SM B) (s s1 : sketch)
      (a : A) (o1 : list sk_event) :
  m s = SRet a s1 o1 ->
  sbind m f s =
  match f a s1 with
  | SRet b s2 o2 => SRet b s2 (o1 ++ o2)
  | SUndefined s2 o2 => SUndefined s2 (o1 ++ o2)
  end.
Proof. intros H. unfold sbind. rewrite H. reflexivity. Qed.

Lemma in_array_iff (i : Z) : in_array i = true <-> 0 <= i < 4.
Proof.
  unfold in_array, NUM_ADDRESSES. rewrite andb_true_iff, Z.leb_le, Z.ltb_lt.
  cbn. lia.
Qed.

Lemma SetOutputs_run (i : Z) (s : sketch) (a : DCCAccessoryAddress) :
  0 <= i < 4 ->
  nth_error (gAddresses s) (Z.to_nat i) = Some a ->
  SetOutputs i s = SRet tt s (SetOutputs_log i a).
Proof.
  intros Hi Hn. apply in_array_iff in Hi.
  unfold SetOutputs, SetOutputs_log, sbind, gAddresses_at,
    digitalWrite, Servo_write, semit.
  rewrite Hi, Hn. destruct (state a); rewrite ?Hn; reflexivity.
Qed.

(** X7: [SetOutputs] on an entry whose two output pins differ drives them
    break-before-make: the pin of the old side is written low before the
    pin of the new side is written high, so if the two pins were not both
    high before the call they are never both high during it; at the return
    the on pin is high and the off pin low when the state is on, the other
    way round when it is off, and the globals and the EEPROM are
    untouched. *)
Theorem X7_SetOutputs_break_before_make
    (i : Z) (s : sketch) (a : DCCAccessoryAddress) (l_on l_off : level) :
  0 <= i < 4 ->
  nth_error (gAddresses s) (Z.to_nat i) = Some a ->
  onPin a <> offPin a ->
  (l_on = LOW \/ l_off = LOW) ->
  exists out,
    SetOutputs i s = SRet tt s out /\
    never_both_high (onPin a) (offPin a) l_on l_off (hw out) = true /\
    pin_level (onPin a) l_on (hw out) = (if state a then HIGH else LOW) /\
    pin_level (offPin a) l_off (hw out) = (if state a then LOW else HIGH) /\
    In (EServo_write i (if state a then servoOnPos a else servoOffPos a)) out.
Proof.
  intros Hi Hn Hd Hl. exists (SetOutputs_log i a).
  split; [apply SetOutputs_run; assumption|].
  assert (E1 : (offPin a =? onPin a) = false) by (apply Z.eqb_neq; congruence).
  assert (E2 : (onPin a =? offPin a) = false) by (apply Z.eqb_neq; congruence).
  unfold SetOutputs_log.
  destruct l_on, l_off; try (destruct Hl; discriminate);
    destruct (state a); cbn [hw never_both_high pin_level In];
    rewrite ?Z.eqb_refl, ?E1, ?E2; cbn [never_both_high];
    repeat split; auto.
Qed.

Lemma X7_SetOutputs_break_before_make_witness :
  0 <= 0 < 4 /\
  nth_error (gAddresses (mkSketch (configured true false false false) 0
                                  (mkAirDcc 10 0 6 0) (fun _ => 0)))
            (Z.to_nat 0) = Some (mkAddr 1 true 18 19 14 45 135) /\
  onPin (mkAddr 1 true 18 19 14 45 135)
    <> offPin (mkAddr 1 true 18 19 14 45 135) /\
  (LOW = LOW \/ HIGH = LOW) /\
  exists out,
    SetOutputs 0 (mkSketch (configured true false false false) 0
                           (mkAirDcc 10 0 6 0) (fun _ => 0)) =
      SRet tt (mkSketch (configured true false false false) 0
                        (mkAirDcc 10 0 6 0) (fun _ => 0)) out /\
    never_both_high (onPin (mkAddr 1 true 18 19 14 45 135))
                    (offPin (mkAddr 1 true 18 19 14 45 135))
                    LOW HIGH (hw out) = true /\
    pin_level (onPin (mkAddr 1 true 18 19 14 45 135)) LOW (hw out) =
      (if state (mkAddr 1 true 18 19 14 45 135) then HIGH else LOW) /\
    pin_level (offPin (mkAddr 1 true 18 19 14 45 135)) HIGH (hw out) =
      (if state (mkAddr 1 true 18 19 14 45 135) then LOW else HIGH) /\
    In (EServo_write 0
          (if state (mkAddr 1 true 18 19 14 45 135)
           then servoOnPos (mkAddr 1 true 18 19 14 45 135)
           else servoOffPos (mkAddr 1 true 18 19 14 45 135))) out.
Proof.
  split; [lia|]. split; [reflexivity|].
  split; [cbn; lia|]. split; [left; reflexivity|].
  apply (X7_SetOutputs_break_before_make 0
           (mkSketch (configured true false false false) 0
                     (mkAirDcc 10 0 6 0) (fun _ => 0))
           (mkAddr 1 true 18 19 14 45 135) LOW HIGH).
  - lia.
  - reflexivity.
  - cbn; lia.
  - left; reflexivity.
Defined.

Lemma int_ok (M v : Z) (s : sketch) :
  - M - 1 <= v <= M -> int_ M v s = SRet v s [].
Proof.
  intros H. unfold int_.
  replace ((- M - 1 <=? v) && (v <=? M)) with true; [reflexivity|].
  symmetry. apply andb_true_iff. rewrite Z.leb_le, Z.leb_le. lia.
Qed.

Lemma land_6_shift (data : Z) :
  Z.shiftr (Z.land data 6) 1 = (data / 2) mod 4.
Proof.
  rewrite Z.shiftr_land. change (Z.shiftr 6 1) with (Z.ones 2).
  rewrite Z.land_ones by lia. rewrite Z.shiftr_div_pow2 by lia. reflexivity.
Qed.

Lemma land_1_odd (data : Z) : Z.land data 1 = Z.b2z (Z.odd data).
Proof.
  change 1 with (Z.ones 1). rewrite Z.land_ones by lia.
  rewrite <- Z.bit0_odd, Z.bit0_mod. reflexivity.
Qed.

Ltac run_sketch :=
  cbv beta iota zeta delta
    [sbind sret sfor seq NUM_ADDRESSES gAddresses_at gAddresses_set in_array
     SetOutputs digitalWrite Servo_write semit EEPROM_update EEPROM_read
     Serial_print Serial_println delay pinMode Servo_attach
     with_state with_address with_offPin with_onPin with_servoPin
     with_servoOffPos with_servoOnPos
     gAddresses timer Modem EEPROM
     address state offPin onPin servoPin servoOffPos servoOnPos
     nth_error update_nth Z.of_nat Z.to_nat Pos.of_succ_nat Pos.succ
     Pos.to_nat Pos.iter_op Nat.add Z.leb Z.ltb Z.compare Pos.compare
     Pos.compare_cont andb app Z.b2z].

Lemma handler_run (INT_MAX a : Z) (act : bool) (data : Z)
      (g0 g1 g2 g3 : DCCAccessoryAddress) (t : Z) (m : AirDcc) (e : Z -> Z) :
  - INT_MAX - 1 <= 4 * (a - 1) -> 4 * a <= INT_MAX ->
  let h := 4 * (a - 1) + 1 + (data / 2) mod 4 in
  let st := negb (Bool.eqb act (Z.odd data)) in
  exists e',
  (forall j, e' j =
     if ((j =? 0) && (h =? address g0)) || ((j =? 1) && (h =? address g1)) ||
        ((j =? 2) && (h =? address g2)) || ((j =? 3) && (h =? address g3))
     then Z.b2z st else e j) /\
  BasicAccDecoderPacket_Handler INT_MAX a act data (mkSketch [g0;g1;g2;g3] t m e) =
  SRet tt (mkSketch (map (handled h st) [g0;g1;g2;g3]) t m e')
       ([ESerial_print (Str "Accessory "); ESerial_print (Int h);
         ESerial_println (Str (on_off st))]
        ++ handled_log h st 0 g0 ++ handled_log h st 1 g1
        ++ handled_log h st 2 g2 ++ handled_log h st 3 g3).
Proof.
  intros H1 H2 h st.
  assert (Hm : 0 <= (data / 2) mod 4 < 4) by (apply Z.mod_pos_bound; lia).
  unfold BasicAccDecoderPacket_Handler.
  rewrite (sbind_SRet _ _ _ _ _ _ (int_ok INT_MAX (a - 1) _ ltac:(lia))).
  rewrite (sbind_SRet _ _ _ _ _ _ (int_ok INT_MAX ((a - 1) * 4) _ ltac:(lia))).
  rewrite (sbind_SRet _ _ _ _ _ _ (int_ok INT_MAX ((a - 1) * 4 + 1) _ ltac:(lia))).
  rewrite land_6_shift.
  rewrite (sbind_SRet _ _ _ _ _ _ (int_ok INT_MAX ((a - 1) * 4 + 1 + (data / 2) mod 4) _ ltac:(lia))).
  rewrite land_1_odd.
  replace ((a - 1) * 4 + 1 + (data / 2) mod 4) with h by (unfold h; lia).
  replace (if Z.b2z act =? Z.b2z (Z.odd data) then false else true) with st
    by (unfold st; destruct act, (Z.odd data); reflexivity).
  clearbody h st.
  destruct g0 as [a0 s0 f0 n0 v0 vf0 vn0], g1 as [a1 s1 f1 n1 v1 vf1 vn1],
    g2 as [a2 s2 f2 n2 v2 vf2 vn2], g3 as [a3 s3 f3 n3 v3 vf3 vn3].
  unfold handled_log, handled, SetOutputs_log.
  cbn [map address state offPin onPin servoPin servoOffPos servoOnPos with_state].
  destruct (h =? a0) eqn:E0; destruct (h =? a1) eqn:E1;
    destruct (h =? a2) eqn:E2; destruct (h =? a3) eqn:E3;
    destruct st;
    (eexists; split;
     [| repeat (run_sketch; rewrite ?E0, ?E1, ?E2, ?E3); reflexivity]);
    intros j; cbv beta;
    cbn [address]; rewrite ?E0, ?E1, ?E2, ?E3;
    destruct (j =? 0), (j =? 1), (j =? 2), (j =? 3); reflexivity.
Qed.

Lemma RestoreStates_run
      (g0 g1 g2 g3 : DCCAccessoryAddress) (t : Z) (m : AirDcc) (e : Z -> Z) :
  RestoreStates (mkSketch [g0; g1; g2; g3] t m e) =
  SRet tt
       (mkSketch [with_state (truthy (e 0)) g0; with_state (truthy (e 1)) g1;
                  with_state (truthy (e 2)) g2; with_state (truthy (e 3)) g3]
                 t m e)
       (RestoreStates_log 0 (with_state (truthy (e 0)) g0)
        ++ RestoreStates_log 1 (with_state (truthy (e 1)) g1)
        ++ RestoreStates_log 2 (with_state (truthy (e 2)) g2)
        ++ RestoreStates_log 3 (with_state (truthy (e 3)) g3)).
Proof.
  destruct g0 as [a0 s0 f0 n0 v0 vf0 vn0], g1 as [a1 s1 f1 n1 v1 vf1 vn1],
    g2 as [a2 s2 f2 n2 v2 vf2 vn2], g3 as [a3 s3 f3 n3 v3 vf3 vn3].
  unfold RestoreStates, RestoreStates_log, SetOutputs_log.
  cbn [address state offPin onPin servoPin servoOffPos servoOnPos with_state].
  destruct (truthy (e 0)) eqn:E0; destruct (truthy (e 1)) eqn:E1;
    destruct (truthy (e 2)) eqn:E2; destruct (truthy (e 3)) eqn:E3;
    repeat (run_sketch; rewrite ?E0, ?E1, ?E2, ?E3); reflexivity.
Qed.

Lemma ConfigureDecoder_run
      (g0 g1 g2 g3 : DCCAccessoryAddress) (t : Z) (m : AirDcc) (e : Z -> Z) :
  ConfigureDecoder (mkSketch [g0; g1; g2; g3] t m e) =
  SRet tt
       (mkSketch (configured (state g0) (state g1) (state g2) (state g3)) t m e)
       (concat (map (fun ia => ConfigureDecoder_log (fst ia) (snd ia))
                    (combine [0; 1; 2; 3]
                       (configured (state g0) (state g1) (state g2) (state g3))))).
Proof.
  destruct g0 as [a0 s0 f0 n0 v0 vf0 vn0], g1 as [a1 s1 f1 n1 v1 vf1 vn1],
    g2 as [a2 s2 f2 n2 v2 vf2 vn2], g3 as [a3 s3 f3 n3 v3 vf3 vn3].
  unfold ConfigureDecoder. run_sketch. reflexivity.
Qed.

(** X8: a packet whose address arithmetic stays inside [int] is converted
    to the address [h = 4 * (address - 1) + 1 + bits 2..1 of data], between
    [4 * address - 3] and [4 * address], with the state on exactly when
    [activate] differs from bit 0 of [data].  The handler prints them, then
    for every entry with address [h], and for no other entry, it stores the
    state, drives the outputs of the entry for that state and writes the
    state as 0 or 1 to the EEPROM cell of the entry's index; other entries
    and cells, the timer and the modem are untouched. *)
Theorem X8_handler_updates_entries_with_converted_address
    (INT_MAX a : Z) (act : bool) (data : Z)
    (g0 g1 g2 g3 : DCCAccessoryAddress) (t : Z) (m : AirDcc) (e : Z -> Z) :
  - INT_MAX - 1 <= 4 * (a - 1) ->
  4 * a <= INT_MAX ->
  exists h st s1 out,
    h = 4 * (a - 1) + 1 + (data / 2) mod 4 /\
    4 * a - 3 <= h <= 4 * a /\
    st = negb (Bool.eqb act (Z.odd data)) /\
    BasicAccDecoderPacket_Handler INT_MAX a act data
      (mkSketch [g0; g1; g2; g3] t m e) = SRet tt s1 out /\
    gAddresses s1 = map (handled h st) [g0; g1; g2; g3] /\
    timer s1 = t /\ Modem s1 = m /\
    (forall i g, nth_error [g0; g1; g2; g3] i = Some g ->
       EEPROM s1 (Z.of_nat i) =
       if h =? address g then Z.b2z st else e (Z.of_nat i)) /\
    (forall j, j < 0 \/ 4 <= j -> EEPROM s1 j = e j) /\
    out = [ESerial_print (Str "Accessory "); ESerial_print (Int h);
           ESerial_println (Str (on_off st))]
          ++ handled_log h st 0 g0 ++ handled_log h st 1 g1
          ++ handled_log h st 2 g2 ++ handled_log h st 3 g3.
Proof.
  intros H1 H2.
  destruct (handler_run INT_MAX a act data g0 g1 g2 g3 t m e H1 H2)
    as (e' & He' & Hrun).
  assert (Hm : 0 <= (data / 2) mod 4 < 4) by (apply Z.mod_pos_bound; lia).
  eexists. eexists. eexists. eexists.
  split; [reflexivity|]. split; [lia|]. split; [reflexivity|].
  split; [exact Hrun|].
  cbn [gAddresses timer Modem EEPROM].
  split; [reflexivity|]. split; [reflexivity|]. split; [reflexivity|].
  split; [|split; [|reflexivity]].
  - intros i g Hg. rewrite He'.
    destruct i as [|[|[|[|i]]]]; cbn in Hg;
      try (destruct i; discriminate);
      injection Hg as <-; cbn [Z.of_nat Pos.of_succ_nat Pos.succ Z.eqb Pos.eqb andb orb];
      repeat match goal with
             | |- context [?x =? address ?g] => destruct (x =? address g)
             end; reflexivity.
  - intros j Hj. rewrite He'.
    replace (j =? 0) with false by (symmetry; apply Z.eqb_neq; lia).
    replace (j =? 1) with false by (symmetry; apply Z.eqb_neq; lia).
    replace (j =? 2) with false by (symmetry; apply Z.eqb_neq; lia).
    replace (j =? 3) with false by (symmetry; apply Z.eqb_neq; lia).
    reflexivity.
Qed.

Lemma X8_handler_updates_entries_with_converted_address_witness :
  - 32767 - 1 <= 4 * (1 - 1) /\ 4 * 1 <= 32767 /\
  exists h st s1 out,
    h = 4 * (1 - 1) + 1 + (5 / 2) mod 4 /\
    4 * 1 - 3 <= h <= 4 * 1 /\
    st = negb (Bool.eqb true (Z.odd 5)) /\
    BasicAccDecoderPacket_Handler 32767 1 true 5
      (mkSketch (configured false false false false) 0 (mkAirDcc 10 0 6 0)
                (fun _ => 255)) = SRet tt s1 out /\
    gAddresses s1 = map (handled h st) (configured false false false false) /\
    timer s1 = 0 /\ Modem s1 = mkAirDcc 10 0 6 0 /\
    (forall i g, nth_error (configured false false false false) i = Some g ->
       EEPROM s1 (Z.of_nat i) =
       if h =? address g then Z.b2z st else (fun _ => 255) (Z.of_nat i)) /\
    (forall j, j < 0 \/ 4 <= j -> EEPROM s1 j = (fun _ => 255) j) /\
    out = [ESerial_print (Str "Accessory "); ESerial_print (Int h);
           ESerial_println (Str (on_off st))]
          ++ handled_log h st 0 (mkAddr 1 false 18 19 14 45 135)
          ++ handled_log h st 1 (mkAddr 2 false 3 4 15 45 135)
          ++ handled_log h st 2 (mkAddr 3 false 5 6 16 45 135)
          ++ handled_log h st 3 (mkAddr 4 false 8 9 17 45 135).
Proof.
  split; [lia|]. split; [lia|].
  apply (X8_handler_updates_entries_with_converted_address
           32767 1 true 5
           (mkAddr 1 false 18 19 14 45 135) (mkAddr 2 false 3 4 15 45 135)
           (mkAddr 3 false 5 6 16 45 135) (mkAddr 4 false 8 9 17 45 135)
           0 (mkAirDcc 10 0 6 0) (fun _ => 255)); lia.
Defined.

Lemma map_handled_no_match (h : Z) (st : bool) (gs : list DCCAccessoryAddress) :
  Forall (fun g => address g <> h) gs -> map (handled h st) gs = gs.
Proof.
  induction 1 as [|g gs Hg _ IH]; [reflexivity|].
  cbn [map]. rewrite IH. unfold handled.
  replace (h =? address g) with false; [reflexivity|].
  symmetry. apply Z.eqb_neq. congruence.
Qed.

(** X9: a packet whose converted address is the address of no entry only
    prints: no pin is written, no servo moved, every entry keeps its state
    and every EEPROM cell its value. *)
Theorem X9_handler_ignores_unknown_address
    (INT_MAX a : Z) (act : bool) (data : Z)
    (g0 g1 g2 g3 : DCCAccessoryAddress) (t : Z) (m : AirDcc) (e : Z -> Z) :
  - INT_MAX - 1 <= 4 * (a - 1) ->
  4 * a <= INT_MAX ->
  Forall (fun g => address g <> 4 * (a - 1) + 1 + (data / 2) mod 4)
         [g0; g1; g2; g3] ->
  exists e',
    BasicAccDecoderPacket_Handler INT_MAX a act data
      (mkSketch [g0; g1; g2; g3] t m e) =
    SRet tt (mkSketch [g0; g1; g2; g3] t m e')
         [ESerial_print (Str "Accessory ");
          ESerial_print (Int (4 * (a - 1) + 1 + (data / 2) mod 4));
          ESerial_println (Str (on_off (negb (Bool.eqb act (Z.odd data)))))] /\
    forall j, e' j = e j.
Proof.
  intros H1 H2 Hno.
  destruct (handler_run INT_MAX a act data g0 g1 g2 g3 t m e H1 H2)
    as (e' & He' & Hrun).
  exists e'. rewrite Hrun, (map_handled_no_match _ _ _ Hno).
  assert (E : forall g, In g [g0; g1; g2; g3] ->
              (4 * (a - 1) + 1 + (data / 2) mod 4 =? address g) = false).
  { intros g Hg. apply Z.eqb_neq. intros Heq.
    rewrite Forall_forall in Hno. apply (Hno g Hg). congruence. }
  unfold handled_log.
  rewrite (E g0), (E g1), (E g2), (E g3) by (cbn; auto).
  split; [reflexivity|].
  intros j. rewrite He'.
  rewrite (E g0), (E g1), (E g2), (E g3) by (cbn; auto).
  rewrite !andb_false_r. reflexivity.
Qed.

Lemma X9_handler_ignores_unknown_address_witness :
  - 32767 - 1 <= 4 * (2 - 1) /\ 4 * 2 <= 32767 /\
  Forall (fun g => address g <> 4 * (2 - 1) + 1 + (0 / 2) mod 4)
         (configured true true true true) /\
  exists e',
    BasicAccDecoderPacket_Handler 32767 2 false 0
      (mkSketch (configured true true true true) 0 (mkAirDcc 10 0 6 0)
                (fun _ => 1)) =
    SRet tt (mkSketch (configured true true true true) 0 (mkAirDcc 10 0 6 0) e')
         [ESerial_print (Str "Accessory ");
          ESerial_print (Int (4 * (2 - 1) + 1 + (0 / 2) mod 4));
          ESerial_println (Str (on_off (negb (Bool.eqb false (Z.odd 0)))))] /\
    forall j, e' j = (fun _ => 1) j.
Proof.
  assert (Hno : Forall (fun g => address g <> 4 * (2 - 1) + 1 + (0 / 2) mod 4)
                       (configured true true true true)).
  { repeat apply Forall_cons; try apply Forall_nil; cbn; lia. }
  split; [lia|]. split; [lia|]. split; [exact Hno|].
  apply (X9_handler_ignores_unknown_address 32767 2 false 0
           (mkAddr 1 true 18 19 14 45 135) (mkAddr 2 true 3 4 15 45 135)
           (mkAddr 3 true 5 6 16 45 135) (mkAddr 4 true 8 9 17 45 135)
           0 (mkAirDcc 10 0 6 0) (fun _ => 1)); [lia | lia | exact Hno].
Defined.

Lemma int_overflow (M v : Z) (s : sketch) :
  M < v -> int_ M v s = SUndefined s [].
Proof.
  intros H. unfold int_.
  replace (v <=? M) with false by (symmetry; apply Z.leb_gt; lia).
  rewrite andb_false_r. reflexivity.
Qed.

(** X10: an address so large that four times its predecessor does not fit
    an [int] makes the handler's multiplication overflow: the handler
    stops there, before anything is printed, driven or stored. *)
Theorem X10_handler_address_overflow
    (INT_MAX a : Z) (act : bool) (data : Z) (s : sketch) :
  1 <= a <= INT_MAX ->
  INT_MAX < 4 * (a - 1) ->
  BasicAccDecoderPacket_Handler INT_MAX a act data s = SUndefined s [].
Proof.
  intros Ha Ho. unfold BasicAccDecoderPacket_Handler.
  rewrite (sbind_SRet _ _ _ _ _ _ (int_ok INT_MAX (a - 1) _ ltac:(lia))).
  unfold sbind at 1.
  rewrite (int_overflow INT_MAX ((a - 1) * 4) s ltac:(lia)). reflexivity.
Qed.

Lemma X10_handler_address_overflow_witness :
  1 <= 8193 <= 32767 /\ 32767 < 4 * (8193 - 1) /\
  BasicAccDecoderPacket_Handler 32767 8193 true 0
    (mkSketch (configured false false false false) 0 (mkAirDcc 10 0 6 0)
              (fun _ => 0)) =
  SUndefined (mkSketch (configured false false false false) 0
                       (mkAirDcc 10 0 6 0) (fun _ => 0)) [].
Proof.
  split; [lia|]. split; [lia|].
  apply (X10_handler_address_overflow 32767 8193 true 0); lia.
Defined.

Lemma hw_app (es1 es2 : list sk_event) : hw (es1 ++ es2) = hw es1 ++ hw es2.
Proof.
  induction es1 as [|x es1 IH]; [reflexivity|].
  destruct x; cbn [app hw]; rewrite ?IH; reflexivity.
Qed.

Lemma hw_map_Arduino (es : list event) : hw (map Arduino es) = es.
Proof.
  induction es as [|x es IH]; [reflexivity|]. cbn [map hw]. rewrite IH.
  reflexivity.
Qed.

(** X11: [RestoreStates] sets the state of each of the four entries to
    whether its EEPROM cell is not zero (an erased cell, 0xFF, restores the
    accessory as on), drives the outputs of each entry for that state and
    pauses 500 ms after each; it leaves every other field, the timer, the
    modem and the EEPROM as they were. *)
Theorem X11_RestoreStates_from_EEPROM
    (g0 g1 g2 g3 : DCCAccessoryAddress) (t : Z) (m : AirDcc) (e : Z -> Z) :
  exists out,
    RestoreStates (mkSketch [g0; g1; g2; g3] t m e) =
    SRet tt
         (mkSketch [with_state (negb (e 0 =? 0)) g0;
                    with_state (negb (e 1 =? 0)) g1;
                    with_state (negb (e 2 =? 0)) g2;
                    with_state (negb (e 3 =? 0)) g3] t m e) out /\
    out = RestoreStates_log 0 (with_state (negb (e 0 =? 0)) g0)
          ++ RestoreStates_log 1 (with_state (negb (e 1 =? 0)) g1)
          ++ RestoreStates_log 2 (with_state (negb (e 2 =? 0)) g2)
          ++ RestoreStates_log 3 (with_state (negb (e 3 =? 0)) g3) /\
    delays (hw out) = [500; 500; 500; 500].
Proof.
  eexists. split; [apply RestoreStates_run|]. split; [reflexivity|].
  unfold RestoreStates_log, SetOutputs_log. fold (truthy (e 0)).
  fold (truthy (e 1)). fold (truthy (e 2)). fold (truthy (e 3)).
  cbn [state with_state].
  destruct (truthy (e 0)), (truthy (e 1)), (truthy (e 2)), (truthy (e 3));
    reflexivity.
Qed.

(** X12: the EEPROM carries the state over a restart.  After the handler
    has taken a packet, [RestoreStates] run on fresh globals with the
    EEPROM as the handler left it gives every entry whose index held the
    packet's converted address the state of that packet. *)
Theorem X12_handled_state_survives_restart
    (INT_MAX a : Z) (act : bool) (data : Z)
    (g0 g1 g2 g3 : DCCAccessoryAddress) (t : Z) (m : AirDcc) (e : Z -> Z)
    (k0 k1 k2 k3 : DCCAccessoryAddress) (t' : Z) (m' : AirDcc) :
  - INT_MAX - 1 <= 4 * (a - 1) ->
  4 * a <= INT_MAX ->
  exists s1 out1 s2 out2,
    BasicAccDecoderPacket_Handler INT_MAX a act data
      (mkSketch [g0; g1; g2; g3] t m e) = SRet tt s1 out1 /\
    RestoreStates (mkSketch [k0; k1; k2; k3] t' m' (EEPROM s1)) =
      SRet tt s2 out2 /\
    forall i g k,
      nth_error [g0; g1; g2; g3] i = Some g ->
      nth_error [k0; k1; k2; k3] i = Some k ->
      address g = 4 * (a - 1) + 1 + (data / 2) mod 4 ->
      nth_error (gAddresses s2) i =
        Some (with_state (negb (Bool.eqb act (Z.odd data))) k).
Proof.
  intros H1 H2.
  destruct (handler_run INT_MAX a act data g0 g1 g2 g3 t m e H1 H2)
    as (e' & He' & Hrun).
  eexists. eexists. eexists. eexists.
  split; [exact Hrun|]. cbn [EEPROM].
  split; [apply RestoreStates_run|].
  intros i g k Hg Hk Ha. cbn [gAddresses].
  assert (Ht : forall b : bool, truthy (Z.b2z b) = b) by (intros []; reflexivity).
  destruct i as [|[|[|[|i]]]]; cbn in Hg, Hk;
    try (destruct i; discriminate);
    injection Hg as <-; injection Hk as <-; cbn [nth_error];
    rewrite He', <- Ha;
    cbn [Z.eqb Pos.eqb andb orb]; rewrite Z.eqb_refl;
    cbn [andb orb]; rewrite Ht; reflexivity.
Qed.

Lemma X12_handled_state_survives_restart_witness :
  - 32767 - 1 <= 4 * (1 - 1) /\ 4 * 1 <= 32767 /\
  exists s1 out1 s2 out2,
    BasicAccDecoderPacket_Handler 32767 1 true 2
      (mkSketch (configured true true true true) 0 (mkAirDcc 10 0 6 0)
                (fun _ => 255)) = SRet tt s1 out1 /\
    RestoreStates (mkSketch (configured false false false false) 0
                            (mkAirDcc 10 0 0 0) (EEPROM s1)) =
      SRet tt s2 out2 /\
    forall i g k,
      nth_error (configured true true true true) i = Some g ->
      nth_error (configured false false false false) i = Some k ->
      address g = 4 * (1 - 1) + 1 + (2 / 2) mod 4 ->
      nth_error (gAddresses s2) i =
        Some (with_state (negb (Bool.eqb true (Z.odd 2))) k).
Proof.
  split; [lia|]. split; [lia|].
  apply (X12_handled_state_survives_restart 32767 1 true 2
           (mkAddr 1 true 18 19 14 45 135) (mkAddr 2 true 3 4 15 45 135)
           (mkAddr 3 true 5 6 16 45 135) (mkAddr 4 true 8 9 17 45 135)
           0 (mkAirDcc 10 0 6 0) (fun _ => 255)
           (mkAddr 1 false 18 19 14 45 135) (mkAddr 2 false 3 4 15 45 135)
           (mkAddr 3 false 5 6 16 45 135) (mkAddr 4 false 8 9 17 45 135)
           0 (mkAirDcc 10 0 0 0)); lia.
Defined.

Lemma Modem_startModem_run (gs : list DCCAccessoryAddress) (t : Z)
      (tr ch pw : Z) (e : Z -> Z) :
  Modem_call (startModem (channel mod 256) (truthy tx) (power mod 256))
             (mkSketch gs t (mkAirDcc enablePin tr ch pw) e) =
  SRet tt (mkSketch gs t (mkAirDcc enablePin 0 6 0) e)
       (map Arduino (startModem_log enablePin 0x89 0x0F RX)).
Proof.
  unfold Modem_call. cbn [Modem gAddresses timer EEPROM].
  change (channel mod 256) with 6. change (power mod 256) with 0.
  change (truthy tx) with false.
  rewrite (startModem_receive 6 0 _ 0x0F eq_refl). reflexivity.
Qed.

Lemma setup_run (now : Z) (e : Z -> Z) :
  (static_init ;; setup now) (zeroed e) =
  SRet tt
       (mkSketch (configured (truthy (e 0)) (truthy (e 1))
                             (truthy (e 2)) (truthy (e 3)))
                 now (mkAirDcc enablePin 0 6 0) e)
       ([Arduino (EpinMode enablePin OUTPUT);
         ESerial_begin 115200;
         ESerial_println (Str "DCC Wireless Accessory Decoder");
         EDCC_SetBasicAccessoryDecoderPacketHandler true]
        ++ concat (map (fun ia => ConfigureDecoder_log (fst ia) (snd ia))
                       (combine [0; 1; 2; 3]
                                (configured false false false false)))
        ++ [Arduino (Edelay 100);
            EDCC_SetupDecoder 0 0 kDCC_INTERRUPT;
            ESerial_print (Str "RF Channel:");
            ESerial_println (Int channel)]
        ++ map Arduino (startModem_log enablePin 0x89 0x0F RX)
        ++ [ESerial_println (Str "Restoring states:")]
        ++ concat (map (fun ia => RestoreStates_log (fst ia) (snd ia))
                       (combine [0; 1; 2; 3]
                                (configured (truthy (e 0)) (truthy (e 1))
                                            (truthy (e 2)) (truthy (e 3)))))).
Proof.
  unfold setup.
  repeat (erewrite sbind_SRet;
          [| first [apply ConfigureDecoder_run | apply RestoreStates_run
                   | apply Modem_startModem_run | reflexivity]]).
  cbv beta iota delta [set_timer gAddresses timer Modem EEPROM].
  cbn [state with_state configured combine map concat fst snd app].
  rewrite ?app_nil_r.
  reflexivity.
Qed.

Lemma setup_run_bus (now : Z) (e : Z -> Z) :
  exists out,
    (static_init ;; setup now) (zeroed e) =
    SRet tt
         (mkSketch (configured (truthy (e 0)) (truthy (e 1))
                               (truthy (e 2)) (truthy (e 3)))
                   now (mkAirDcc 10 0 6 0) e) out /\
    transactions 10 (hw out) =
      Some [[STOP]; initData; [PATABLE; 0x89]; [CHAN; 0x0F]; [RX]] /\
    on_pin_and_spi 10 (hw out) =
      on_pin_and_spi 10 (EpinMode 10 OUTPUT :: startModem_log 10 0x89 0x0F RX) /\
    attached_pins out = [14; 15; 16; 17].
Proof.
  eexists. split; [apply setup_run|].
  unfold RestoreStates_log, SetOutputs_log, configured.
  cbn [combine map fst snd state].
  destruct (truthy (e 0)), (truthy (e 1)), (truthy (e 2)), (truthy (e 3));
    (split; [vm_compute; reflexivity|]);
    (split; vm_compute; reflexivity).
Qed.

(** X13: after [setup], run from the zeroed globals and the constructor of
    [Modem], whatever the EEPROM holds: the call completes; the four
    entries are configured with addresses 1 to 4 and the state of each is
    whether its EEPROM cell is not zero; the modem object is in receive
    direction on channel 6 with select pin 10; the bus saw exactly the
    receive start-up frames with channel code 0x0F, and the select pin is
    high; each accessory has its on pin high and off pin low when on, the
    other way round when off; the timer holds the reading of [millis()];
    and the delays add up to 2200 ms. *)
Theorem X13_setup_starts_receiver_and_restores
    (now : Z) (e : Z -> Z) :
  exists out,
    (static_init ;; setup now) (zeroed e) =
    SRet tt
         (mkSketch (configured (truthy (e 0)) (truthy (e 1))
                               (truthy (e 2)) (truthy (e 3)))
                   now (mkAirDcc 10 0 6 0) e) out /\
    transactions 10 (hw out) =
      Some [[STOP]; initData; [PATABLE; 0x89]; [CHAN; 0x0F]; [RX]] /\
    pin_level 10 LOW (hw out) = HIGH /\
    delays (hw out) = [100; 100; 500; 500; 500; 500] /\
    forall g,
      In g (configured (truthy (e 0)) (truthy (e 1))
                       (truthy (e 2)) (truthy (e 3))) ->
      pin_level (onPin g) LOW (hw out) = (if state g then HIGH else LOW) /\
      pin_level (offPin g) LOW (hw out) = (if state g then LOW else HIGH).
Proof.
  eexists. split; [apply setup_run|].
  unfold RestoreStates_log, SetOutputs_log, configured.
  cbn [combine map fst snd state].
  destruct (truthy (e 0)), (truthy (e 1)), (truthy (e 2)), (truthy (e 3));
    (split; [vm_compute; reflexivity|]);
    (split; [vm_compute; reflexivity|]);
    (split; [vm_compute; reflexivity|]);
    intros g Hg; cbn [In] in Hg;
    repeat (destruct Hg as [<- | Hg]; [split; vm_compute; reflexivity|]);
    destruct Hg.
Qed.

Lemma Modem_keepAlive_run (gs : list DCCAccessoryAddress) (t : Z)
      (m : AirDcc) (e : Z -> Z) :
  Modem_call keepAlive (mkSketch gs t m e) =
  SRet tt (mkSketch gs t m e)
       (map Arduino (keepAlive_log (_enable_pin m) (mode_of (_transmit m)))).
Proof.
  unfold Modem_call. cbn [Modem gAddresses timer EEPROM].
  rewrite keepAlive_run. reflexivity.
Qed.

Lemma millis_elapsed (t d : Z) :
  0 <= d < 2 ^ 32 -> ((t + d) mod 2 ^ 32 - t) mod 2 ^ 32 = d.
Proof.
  intros Hd. rewrite Zminus_mod_idemp_l.
  replace (t + d - t) with d by lia. apply Z.mod_small. exact Hd.
Qed.

Lemma loop_run (DCC_loop : SM unit) (s : sketch)
      (gs : list DCCAccessoryAddress) (t : Z) (m : AirDcc) (e : Z -> Z)
      (out1 : list sk_event) (now1 now2 : Z) :
  DCC_loop s = SRet tt (mkSketch gs t m e) out1 ->
  loop DCC_loop now1 now2 s =
  if 500 <? (now1 - t) mod 2 ^ 32
  then SRet tt (mkSketch gs now2 m e)
            (out1 ++ map Arduino (keepAlive_log (_enable_pin m)
                                                (mode_of (_transmit m))))
  else SRet tt (mkSketch gs t m e) out1.
Proof.
  intros Hd. unfold loop.
  rewrite (sbind_SRet _ _ _ _ _ _ Hd).
  unfold sbind at 1, get_timer. cbn [timer].
  rewrite Z.gtb_ltb.
  destruct (500 <? (now1 - t) mod 2 ^ 32).
  - rewrite (sbind_SRet _ _ _ _ _ _ (Modem_keepAlive_run gs t m e)).
    cbv beta iota delta [set_timer gAddresses timer Modem EEPROM].
    cbn [app]. rewrite app_nil_r. reflexivity.
  - cbv beta iota delta [sret]. cbn [app]. rewrite app_nil_r. reflexivity.
Qed.

(** X14: one pass of [loop], after [DCC.loop()] has returned, sends the
    keepalive exactly when more than 500 ms lie between the stored timer
    and the reading of [millis()], also when [millis()] has wrapped round
    2^32 in between: for an elapsed time [d] below 2^32 it calls
    [keepAlive] once and stores the second reading of [millis()] when
    [500 < d], and does nothing otherwise. *)
Theorem X14_loop_keepAlive_every_500ms
    (DCC_loop : SM unit) (s : sketch)
    (gs : list DCCAccessoryAddress) (t : Z) (m : AirDcc) (e : Z -> Z)
    (out1 : list sk_event) (d now2 : Z) :
  DCC_loop s = SRet tt (mkSketch gs t m e) out1 ->
  0 <= d < 2 ^ 32 ->
  loop DCC_loop ((t + d) mod 2 ^ 32) now2 s =
  if 500 <? d
  then SRet tt (mkSketch gs now2 m e)
            (out1 ++ map Arduino (keepAlive_log (_enable_pin m)
                                                (mode_of (_transmit m))))
  else SRet tt (mkSketch gs t m e) out1.
Proof.
  intros Hd Hr.
  rewrite (loop_run DCC_loop s gs t m e out1 _ now2 Hd).
  rewrite (millis_elapsed t d Hr). reflexivity.
Qed.

Lemma X14_loop_keepAlive_every_500ms_witness :
  sret tt (mkSketch (configured true false true false) 4294967000
                    (mkAirDcc 10 0 6 0) (fun _ => 1)) =
    SRet tt (mkSketch (configured true false true false) 4294967000
                      (mkAirDcc 10 0 6 0) (fun _ => 1)) [] /\
  0 <= 501 < 2 ^ 32 /\
  loop (sret tt) ((4294967000 + 501) mod 2 ^ 32) 207
       (mkSketch (configured true false true false) 4294967000
                 (mkAirDcc 10 0 6 0) (fun _ => 1)) =
  if 500 <? 501
  then SRet tt (mkSketch (configured true false true false) 207
                         (mkAirDcc 10 0 6 0) (fun _ => 1))
            ([] ++ map Arduino
                     (keepAlive_log (_enable_pin (mkAirDcc 10 0 6 0))
                                    (mode_of (_transmit (mkAirDcc 10 0 6 0)))))
  else SRet tt (mkSketch (configured true false true false) 4294967000
                         (mkAirDcc 10 0 6 0) (fun _ => 1)) [].
Proof.
  split; [reflexivity|]. split; [lia|].
  apply (X14_loop_keepAlive_every_500ms (sret tt)
           (mkSketch (configured true false true false) 4294967000
                     (mkAirDcc 10 0 6 0) (fun _ => 1))
           (configured true false true false) 4294967000
           (mkAirDcc 10 0 6 0) (fun _ => 1) [] 501 207).
  - reflexivity.
  - lia.
Defined.

(** X15: [ConfigureDecoder] keeps the state of every entry, whatever the
    entries held before, and gives them the addresses 1 to 4, which are
    pairwise distinct; the twelve pins it assigns are pairwise distinct and
    none of them is the select pin of the modem; its [pinMode] calls are
    exactly these twelve pins, each with mode [OUTPUT], and it writes no
    pin; it attaches servo [i] to the servo pin of entry [i]; the timer,
    the modem and the EEPROM are untouched. *)
Theorem X15_ConfigureDecoder_assigns_distinct_pins
    (g0 g1 g2 g3 : DCCAccessoryAddress) (t : Z) (m : AirDcc) (e : Z -> Z) :
  exists gs out,
    ConfigureDecoder (mkSketch [g0; g1; g2; g3] t m e) =
      SRet tt (mkSketch gs t m e) out /\
    map state gs = map state [g0; g1; g2; g3] /\
    map address gs = [1; 2; 3; 4] /\
    NoDup (enablePin :: concat (map pins_of gs)) /\
    pin_modes (hw out) =
      map (fun p => (p, OUTPUT)) (concat (map pins_of gs)) /\
    pin_writes (hw out) = [] /\
    filter (fun x => match x with EServo_attach _ _ => true | _ => false end) out
      = map (fun ia => EServo_attach (fst ia) (servoPin (snd ia)))
            (combine [0; 1; 2; 3] gs).
Proof.
  eexists. eexists. split; [apply ConfigureDecoder_run|].
  split; [reflexivity|]. split; [reflexivity|].
  split; [|split; [reflexivity|split; reflexivity]].
  cbn.
  repeat (apply NoDup_cons;
          [intros H; cbn in H;
           repeat (destruct H as [H|H]; [discriminate H|]); exact H|]).
  apply NoDup_nil.
Qed.

Lemma handled_configured (h : Z) (st b0 b1 b2 b3 : bool) :
  map (handled h st) (configured b0 b1 b2 b3) =
  configured (if h =? 1 then st else b0) (if h =? 2 then st else b1)
             (if h =? 3 then st else b2) (if h =? 4 then st else b3).
Proof.
  unfold handled, configured. cbn [map address with_state state offPin onPin
                                   servoPin servoOffPos servoOnPos].
  destruct (h =? 1), (h =? 2), (h =? 3), (h =? 4); reflexivity.
Qed.

Lemma on_pin_and_spi_app (pin : Z) (es1 es2 : list event) :
  on_pin_and_spi pin (es1 ++ es2) =
  on_pin_and_spi pin es1 ++ on_pin_and_spi pin es2.
Proof.
  induction es1 as [|x es1 IH]; [reflexivity|].
  cbn [app on_pin_and_spi]. rewrite IH.
  destruct x; try reflexivity;
    match goal with |- context [?p =? pin] => destruct (p =? pin) end;
    reflexivity.
Qed.

Lemma attached_pins_app (es1 es2 : list sk_event) :
  attached_pins (es1 ++ es2) = attached_pins es1 ++ attached_pins es2.
Proof.
  induction es1 as [|x es1 IH]; [reflexivity|].
  destruct x; cbn [app attached_pins]; rewrite ?IH; reflexivity.
Qed.

Lemma attached_pins_Arduino (es : list event) :
  attached_pins (map Arduino es) = [].
Proof. induction es as [|x es IH]; [reflexivity | exact IH]. Qed.

Lemma handled_log_off_the_bus (h : Z) (st b0 b1 b2 b3 : bool) :
  let out :=
    [ESerial_print (Str "Accessory "); ESerial_print (Int h);
     ESerial_println (Str (on_off st))]
    ++ handled_log h st 0 (mkAddr 1 b0 18 19 14 45 135)
    ++ handled_log h st 1 (mkAddr 2 b1 3 4 15 45 135)
    ++ handled_log h st 2 (mkAddr 3 b2 5 6 16 45 135)
    ++ handled_log h st 3 (mkAddr 4 b3 8 9 17 45 135) in
  transactions enablePin (hw out) = Some [] /\
  on_pin_and_spi enablePin (hw out) = [] /\
  attached_pins out = [].
Proof.
  unfold handled_log, SetOutputs_log.
  cbn [address state with_state offPin onPin servoOnPos servoOffPos].
  destruct (h =? 1), (h =? 2), (h =? 3), (h =? 4), st;
    repeat split; reflexivity.
Qed.

Lemma deliver_keeps_the_bus (INT_MAX : Z) (m : AirDcc) (ps : list packet) :
  forall (b0 b1 b2 b3 : bool) (t : Z) (e : Z -> Z),
  Forall (packet_in_int INT_MAX) ps ->
  exists c0 c1 c2 c3 e' out,
    deliver INT_MAX ps (mkSketch (configured b0 b1 b2 b3) t m e) =
      SRet tt (mkSketch (configured c0 c1 c2 c3) t m e') out /\
    transactions enablePin (hw out) = Some [] /\
    on_pin_and_spi enablePin (hw out) = [] /\
    attached_pins out = [].
Proof.
  induction ps as [|[[a act] data] ps IH]; intros b0 b1 b2 b3 t e Hps.
  - exists b0, b1, b2, b3, e, []. repeat split; reflexivity.
  - inversion Hps as [|p ps' [H1 H2] Hrest]; subst. cbn [fst] in H1, H2.
    destruct (handler_run INT_MAX a act data
                (mkAddr 1 b0 18 19 14 45 135) (mkAddr 2 b1 3 4 15 45 135)
                (mkAddr 3 b2 5 6 16 45 135) (mkAddr 4 b3 8 9 17 45 135)
                t m e H1 H2) as (e1 & _ & Hrun).
    fold (configured b0 b1 b2 b3) in Hrun.
    rewrite handled_configured in Hrun.
    match type of Hrun with
    | _ = SRet tt (mkSketch (configured ?x0 ?x1 ?x2 ?x3) _ _ _) _ =>
        destruct (IH x0 x1 x2 x3 t e1 Hrest)
          as (c0 & c1 & c2 & c3 & e' & out2 & Hd & Ht & Hb & Hs)
    end.
    destruct (handled_log_off_the_bus
                (4 * (a - 1) + 1 + (data / 2) mod 4)
                (negb (Bool.eqb act (Z.odd data))) b0 b1 b2 b3)
      as (Ht1 & Hb1 & Hs1).
    exists c0, c1, c2, c3, e'. eexists.
    split.
    + cbn [deliver]. rewrite (sbind_SRet _ _ _ _ _ _ Hrun), Hd. reflexivity.
    + rewrite hw_app, on_pin_and_spi_app, attached_pins_app, Hb1, Hb, Hs1, Hs.
      split; [|split; reflexivity].
      apply (transactions_app enablePin _ _ [] []); [exact Ht1 | exact Ht].
Qed.

Lemma run_loops_keeps_the_bus (INT_MAX : Z)
      (passes : list (list packet * Z * Z)) :
  forall (b0 b1 b2 b3 : bool) (t : Z) (e : Z -> Z),
  Forall (fun p => Forall (packet_in_int INT_MAX) (fst (fst p))) passes ->
  exists c0 c1 c2 c3 t' e' out k,
    run_loops INT_MAX passes
      (mkSketch (configured b0 b1 b2 b3) t (mkAirDcc enablePin 0 6 0) e) =
      SRet tt (mkSketch (configured c0 c1 c2 c3) t'
                        (mkAirDcc enablePin 0 6 0) e') out /\
    transactions enablePin (hw out) = Some (repeat [RX] k) /\
    on_pin_and_spi enablePin (hw out) =
      concat (repeat (keepAlive_log enablePin RX) k) /\
    attached_pins out = [] /\
    (k <= length passes)%nat.
Proof.
  induction passes as [|[[ps now1] now2] passes IH];
    intros b0 b1 b2 b3 t e Hps.
  - exists b0, b1, b2, b3, t, e, [], 0%nat.
    repeat split; reflexivity || apply Nat.le_refl.
  - inversion Hps as [|p ps' Hp Hrest]; subst. cbn [fst] in Hp.
    destruct (deliver_keeps_the_bus INT_MAX (mkAirDcc enablePin 0 6 0)
                ps b0 b1 b2 b3 t e Hp)
      as (d0 & d1 & d2 & d3 & e1 & out1 & Hd & Ht & Hb & Hs).
    pose proof (loop_run _ _ _ _ _ _ _ now1 now2 Hd) as Hl.
    cbn [_enable_pin _transmit] in Hl.
    change (mode_of 0) with RX in Hl.
    destruct (500 <? (now1 - t) mod 2 ^ 32).
    + destruct (IH d0 d1 d2 d3 now2 e1 Hrest)
        as (c0 & c1 & c2 & c3 & t' & e' & out2 & k & Hr & Htr & Hbr & Hsr & Hk).
      exists c0, c1, c2, c3, t', e'. eexists. exists (S k).
      split; [cbn [run_loops]; rewrite (sbind_SRet _ _ _ _ _ _ Hl), Hr;
              reflexivity|].
      rewrite !hw_app, hw_map_Arduino, !on_pin_and_spi_app,
        !attached_pins_app, attached_pins_Arduino, Hb, Hbr, Hs, Hsr.
      split; [|split; [reflexivity|split;
                 [reflexivity | cbn [length]; apply le_n_S, Hk]]].
      apply (transactions_app enablePin _ _ [[RX]] (repeat [RX] k));
        [|exact Htr].
      apply (transactions_app enablePin _ _ [] [[RX]]);
        [exact Ht | apply transactions_keepAlive_log].
    + destruct (IH d0 d1 d2 d3 t e1 Hrest)
        as (c0 & c1 & c2 & c3 & t' & e' & out2 & k & Hr & Htr & Hbr & Hsr & Hk).
      exists c0, c1, c2, c3, t', e'. eexists. exists k.
      split; [cbn [run_loops]; rewrite (sbind_SRet _ _ _ _ _ _ Hl), Hr;
              reflexivity|].
      rewrite hw_app, on_pin_and_spi_app, attached_pins_app, Hb, Hbr, Hs, Hsr.
      split; [|split; [reflexivity|split;
                 [reflexivity
                 | cbn [length];
                   apply Nat.le_trans with (1 := Hk), Nat.le_succ_diag_r]]].
      apply (transactions_app enablePin _ _ [] (repeat [RX] k));
        [exact Ht | exact Htr].
Qed.

(** X16: the whole program keeps the modem's bus intact.  From the zeroed
    globals, the constructor, [setup] and then any number of passes of
    [loop], each delivering any packets whose address arithmetic stays
    inside [int], the run completes and the modem object stays in receive
    direction on channel 6.  No accessory pin is the select pin 10 and no
    servo is attached to it.  What the whole run does on pin 10 and on the
    SPI bus is exactly what the driver does there: the constructor's
    [pinMode], the calls of the receive start-up, and the calls of one
    [keepAlive] per keepalive sent, at most one per pass; nothing else
    writes or configures pin 10 or uses the bus.  Read as frames, that is
    the receive start-up frames followed by one receive strobe per
    keepalive. *)
Theorem X16_program_keeps_modem_bus_intact
    (INT_MAX now : Z) (e : Z -> Z) (passes : list (list packet * Z * Z)) :
  Forall (fun p => Forall (packet_in_int INT_MAX) (fst (fst p))) passes ->
  exists gs t e' out k,
    (static_init ;; setup now ;; run_loops INT_MAX passes) (zeroed e) =
      SRet tt (mkSketch gs t (mkAirDcc 10 0 6 0) e') out /\
    map address gs = [1; 2; 3; 4] /\
    Forall (fun p => p <> 10) (concat (map pins_of gs)) /\
    attached_pins out = map servoPin gs /\
    on_pin_and_spi 10 (hw out) =
      on_pin_and_spi 10 (EpinMode 10 OUTPUT :: startModem_log 10 0x89 0x0F RX)
      ++ concat (repeat (keepAlive_log 10 RX) k) /\
    transactions 10 (hw out) =
      Some ([[STOP]; initData; [PATABLE; 0x89]; [CHAN; 0x0F]; [RX]]
            ++ repeat [RX] k) /\
    (k <= length passes)%nat.
Proof.
  intros Hps.
  destruct (setup_run_bus now e) as (out0 & Hs & Ht0 & Hb0 & Ha0).
  destruct (run_loops_keeps_the_bus INT_MAX passes
              (truthy (e 0)) (truthy (e 1)) (truthy (e 2)) (truthy (e 3))
              now e Hps)
    as (c0 & c1 & c2 & c3 & t' & e' & out2 & k & Hr & Htr & Hbr & Har & Hk).
  change enablePin with 10 in Hr, Htr, Hbr.
  exists (configured c0 c1 c2 c3), t', e'. eexists. exists k.
  split.
  { assert (Hassoc : forall s,
              (static_init ;; setup now ;; run_loops INT_MAX passes) s =
              ((static_init ;; setup now) ;; run_loops INT_MAX passes) s).
    { intros s. unfold sbind.
      destruct (static_init s) as [[] s1 o1|s1 o1]; [|reflexivity].
      destruct (setup now s1) as [[] s2 o2|s2 o2]; [|reflexivity].
      destruct (run_loops INT_MAX passes s2) as [[] s3 o3|s3 o3];
        rewrite app_assoc; reflexivity. }
    rewrite Hassoc, (sbind_SRet _ _ _ _ _ _ Hs), Hr. reflexivity. }
  split; [reflexivity|].
  split.
  { cbn. repeat (apply Forall_cons; [discriminate|]). apply Forall_nil. }
  rewrite hw_app, on_pin_and_spi_app, attached_pins_app, Ha0, Har, Hb0, Hbr.
  split; [reflexivity|]. split; [reflexivity|].
  split; [|exact Hk].
  apply transactions_app; [exact Ht0 | exact Htr].
Qed.

Lemma X16_program_keeps_modem_bus_intact_witness :
  Forall (fun p => Forall (packet_in_int 32767) (fst (fst p)))
         [([(1, true, 0); (1, false, 3)], 600, 601); ([], 700, 702)] /\
  exists gs t e' out k,
    (static_init ;; setup 0 ;;
     run_loops 32767
       [([(1, true, 0); (1, false, 3)], 600, 601); ([], 700, 702)])
      (zeroed (fun _ => 255)) =
      SRet tt (mkSketch gs t (mkAirDcc 10 0 6 0) e') out /\
    map address gs = [1; 2; 3; 4] /\
    Forall (fun p => p <> 10) (concat (map pins_of gs)) /\
    attached_pins out = map servoPin gs /\
    on_pin_and_spi 10 (hw out) =
      on_pin_and_spi 10 (EpinMode 10 OUTPUT :: startModem_log 10 0x89 0x0F RX)
      ++ concat (repeat (keepAlive_log 10 RX) k) /\
    transactions 10 (hw out) =
      Some ([[STOP]; initData; [PATABLE; 0x89]; [CHAN; 0x0F]; [RX]]
            ++ repeat [RX] k) /\
    (k <= 2)%nat.
Proof.
  assert (H : Forall (fun p => Forall (packet_in_int 32767) (fst (fst p)))
                [([(1, true, 0); (1, false, 3)], 600, 601); ([], 700, 702)]).
  { repeat (apply Forall_cons || apply Forall_nil);
      unfold packet_in_int; cbn; lia. }
  split; [exact H|].
  apply (X16_program_keeps_modem_bus_intact 32767 0 (fun _ => 255)
           [([(1, true, 0); (1, false, 3)], 600, 601); ([], 700, 702)]).
  exact H.
Defined.

Lemma handled_twice (h : Z) (st : bool) (g : DCCAccessoryAddress) :
  handled h st (handled h st g) = handled h st g /\
  forall i, handled_log h st i (handled h st g) = handled_log h st i g.
Proof.
  unfold handled, handled_log.
  destruct (h =? address g) eqn:E; cbn [address with_state]; rewrite E;
    split; reflexivity.
Qed.

Lemma handled_address (h : Z) (st : bool) (g : DCCAccessoryAddress) :
  address (handled h st g) = address g.
Proof. unfold handled. destruct (h =? address g); reflexivity. Qed.

(** X17: the handler is idempotent.  A packet delivered a second time,
    right after the first, leaves every entry and every EEPROM cell as the
    first delivery left them, and prints and drives exactly what the first
    delivery did (command stations repeat their packets). *)
Theorem X17_handler_idempotent
    (INT_MAX a : Z) (act : bool) (data : Z)
    (g0 g1 g2 g3 : DCCAccessoryAddress) (t : Z) (m : AirDcc) (e : Z -> Z) :
  - INT_MAX - 1 <= 4 * (a - 1) ->
  4 * a <= INT_MAX ->
  exists s1 s2 out,
    BasicAccDecoderPacket_Handler INT_MAX a act data
      (mkSketch [g0; g1; g2; g3] t m e) = SRet tt s1 out /\
    BasicAccDecoderPacket_Handler INT_MAX a act data s1 = SRet tt s2 out /\
    gAddresses s2 = gAddresses s1 /\
    timer s2 = timer s1 /\ Modem s2 = Modem s1 /\
    forall j, EEPROM s2 j = EEPROM s1 j.
Proof.
  intros H1 H2.
  destruct (handler_run INT_MAX a act data g0 g1 g2 g3 t m e H1 H2)
    as (e1 & He1 & Hrun1).
  set (h := 4 * (a - 1) + 1 + (data / 2) mod 4) in *.
  set (st := negb (Bool.eqb act (Z.odd data))) in *.
  destruct (handler_run INT_MAX a act data
              (handled h st g0) (handled h st g1)
              (handled h st g2) (handled h st g3) t m e1 H1 H2)
    as (e2 & He2 & Hrun2).
  fold h st in He2, Hrun2.
  cbn [map] in Hrun1, Hrun2.
  rewrite !(proj1 (handled_twice h st _)) in Hrun2.
  rewrite !(proj2 (handled_twice h st _)) in Hrun2.
  eexists. eexists. eexists.
  split; [exact Hrun1|]. split; [exact Hrun2|].
  cbn [gAddresses timer Modem EEPROM].
  split; [reflexivity|]. split; [reflexivity|]. split; [reflexivity|].
  intros j. rewrite He2, !handled_address, He1.
  destruct ((j =? 0) && (h =? address g0) || (j =? 1) && (h =? address g1)
            || (j =? 2) && (h =? address g2) || (j =? 3) && (h =? address g3));
    reflexivity.
Qed.

Lemma X17_handler_idempotent_witness :
  - 32767 - 1 <= 4 * (1 - 1) /\ 4 * 1 <= 32767 /\
  exists s1 s2 out,
    BasicAccDecoderPacket_Handler 32767 1 true 4
      (mkSketch (configured false false false false) 0 (mkAirDcc 10 0 6 0)
                (fun _ => 0)) = SRet tt s1 out /\
    BasicAccDecoderPacket_Handler 32767 1 true 4 s1 = SRet tt s2 out /\
    gAddresses s2 = gAddresses s1 /\
    timer s2 = timer s1 /\ Modem s2 = Modem s1 /\
    forall j, EEPROM s2 j = EEPROM s1 j.
Proof.
  split; [lia|]. split; [lia|].
  apply (X17_handler_idempotent 32767 1 true 4
           (mkAddr 1 false 18 19 14 45 135) (mkAddr 2 false 3 4 15 45 135)
           (mkAddr 3 false 5 6 16 45 135) (mkAddr 4 false 8 9 17 45 135)
           0 (mkAirDcc 10 0 6 0) (fun _ => 0)); lia.
Defined.

End SketchProofs.
